(** * ArtworksTable: cross-page row selection over a paged remote collection

    A shallow embedding of [src/components/Table.tsx] (the React component
    [ArtworksTable]) and the properties of its selection state machine.

    Conventions of the embedding.
    - A JavaScript [number] that holds an integer is a [Z]; every quantity
      of the component (ids, page numbers, counts) stays far below 2^53,
      where the double arithmetic of the source is exact.
    - [Set<number>] is a [gset Z]: the component only asks for membership
      and size, never for iteration order.
    - The component state (the six [useState] cells) is the record [State].
      An event handler is a closure over the state of the render it was
      created in: it READS the captured values and WRITES through the
      setters.  A handler is therefore a function of the captured state
      that runs in the state monad [M] of the writes.
    - The remote endpoint is a function from the page number and the limit
      to a [Response]; a run of a handler is modelled without other events
      interleaved at its [await] points. *)

From Stdlib Require Import ZArith Lia.
From stdpp Require Import base decidable numbers option list sets gmap strings.

Local Open Scope Z_scope.
Set Warnings "-clear-no-such-hyp".


(** ** Data model *)

Module Table.

(** [interface Artwork]. *)
Record Artwork := mkArtwork {
  id : Z;
  title : string;
  place_of_origin : string;
  artist_display : string;
  inscriptions : string;
  date_start : Z;
  date_end : Z
}.

(** An element of [data.data] as the endpoint sends it: [inscriptions] may
    be [null]. *)
Record RawArtwork := mkRaw {
  raw_id : Z;
  raw_title : string;
  raw_place_of_origin : string;
  raw_artist_display : string;
  raw_inscriptions : option string;
  raw_date_start : Z;
  raw_date_end : Z
}.

(** [interface LazyState]. *)
Record LazyState := mkLazy {
  first : Z;
  rows : Z;
  page : Z
}.

(** The [useState] cells of [ArtworksTable]. *)
Record State := mkState {
  artworks : list Artwork;
  loading : bool;
  totalRecords : Z;
  lazyState : LazyState;
  selectedIds : gset Z;
  rowCountToSelect : Z
}.

(** The initial values given to [useState]. *)
Definition initialState : State :=
  {| artworks := [];
     loading := false;
     totalRecords := 0;
     lazyState := {| first := 0; rows := 10; page := 1 |};
     selectedIds := ∅;
     rowCountToSelect := 0 |}.

(** What [await fetch(...)] followed by [await response.json()] yields:
    either one of the two awaits rejects, or there is a body, whose [data]
    array and [pagination] object may each be missing (reading through a
    missing one throws a TypeError inside the [try]). *)
Inductive Response :=
| Rejected
| Body (data : option (list RawArtwork)) (pagination_total : option Z).

(** The endpoint: page number and limit to response. *)
Definition Remote := Z → Z → Response.

(** ** The monad of state writes *)

Definition M (A : Type) : Type := State → A * State.

Definition ret {A} (a : A) : M A := λ s, (a, s).

Definition bind {A B} (m : M A) (k : A → M B) : M B :=
  λ s, let (a, s') := m s in k a s'.

Notation "'do' x <- c ; k" := (bind c (λ x, k))
  (at level 10, x name, c at level 100, k at level 200).
Notation "c ;; k" := (bind c (λ _, k))
  (at level 100, k at level 200, right associativity).

Definition setArtworks (v : list Artwork) : M unit := λ s,
  (tt, {| artworks := v; loading := loading s; totalRecords := totalRecords s;
          lazyState := lazyState s; selectedIds := selectedIds s;
          rowCountToSelect := rowCountToSelect s |}).

Definition setLoading (v : bool) : M unit := λ s,
  (tt, {| artworks := artworks s; loading := v; totalRecords := totalRecords s;
          lazyState := lazyState s; selectedIds := selectedIds s;
          rowCountToSelect := rowCountToSelect s |}).

Definition setTotalRecords (v : Z) : M unit := λ s,
  (tt, {| artworks := artworks s; loading := loading s; totalRecords := v;
          lazyState := lazyState s; selectedIds := selectedIds s;
          rowCountToSelect := rowCountToSelect s |}).

Definition setLazyState (f : LazyState → LazyState) : M unit := λ s,
  (tt, {| artworks := artworks s; loading := loading s;
          totalRecords := totalRecords s; lazyState := f (lazyState s);
          selectedIds := selectedIds s;
          rowCountToSelect := rowCountToSelect s |}).

Definition setSelectedIds (v : gset Z) : M unit := λ s,
  (tt, {| artworks := artworks s; loading := loading s;
          totalRecords := totalRecords s; lazyState := lazyState s;
          selectedIds := v; rowCountToSelect := rowCountToSelect s |}).

Definition setRowCountToSelect (v : Z) : M unit := λ s,
  (tt, {| artworks := artworks s; loading := loading s;
          totalRecords := totalRecords s; lazyState := lazyState s;
          selectedIds := selectedIds s; rowCountToSelect := v |}).

(** ** fetchData *)

(** The object literal built in [data.data.map]: [inscriptions || 'N/A']
    replaces [null] and the empty string. *)
Definition toArtwork (r : RawArtwork) : Artwork :=
  {| id := raw_id r;
     title := raw_title r;
     place_of_origin := raw_place_of_origin r;
     artist_display := raw_artist_display r;
     inscriptions := match raw_inscriptions r with
                     | Some EmptyString | None => "N/A"
                     | Some s => s
                     end;
     date_start := raw_date_start r;
     date_end := raw_date_end r |}.

(** The [try]/[catch] of [fetchData]: the value it returns and whether
    [setTotalRecords] was reached.  Every throw lands in [catch], which
    returns the empty array. *)
Definition fetchData (remote : Remote) (first rows page : Z)
  : M (list Artwork) :=
  setLoading true ;;
  do r <- match remote page rows with
          | Body (Some d) (Some t) =>
              let artworkData := toArtwork <$> d in
              setTotalRecords t ;; ret artworkData
          | _ => ret []
          end ;
  setLoading false ;;
  ret r.

(** [useEffect(() => { fetchData(...).then(setArtworks) }, [lazyState])]. *)
Definition pageEffect (remote : Remote) (c : State) : M unit :=
  do l <- fetchData remote (first (lazyState c)) (rows (lazyState c))
            (page (lazyState c)) ;
  setArtworks l.

(** [DataTablePageEvent], the two fields the handler reads. *)
Record PageEvent := mkPageEvent { ev_first : Z; ev_rows : Z }.

(** [Math.floor(event.first / event.rows) + 1]; [Z.div] rounds down.  The
    paginator offers 5, 10 and 15 rows per page, so [event.rows] is
    positive. *)
Definition onPage (event : PageEvent) : M unit :=
  setLazyState (λ prevState,
    {| first := ev_first event;
       rows := ev_rows event;
       page := ev_first event / ev_rows event + 1 |}).

(** A page change as the user sees it: [onPage], the re-render, and the
    effect the new [lazyState] triggers. *)
Definition changePage (remote : Remote) (event : PageEvent) : M unit :=
  λ s, let s1 := (onPage event s).2 in pageEffect remote s1 s1.

(** ** Selection *)

Definition isSelected (c : State) (i : Z) : bool :=
  bool_decide (i ∈ selectedIds c).

(** [arr.slice(0, n)] for an integer [n]: a negative end counts from the
    end of the array. *)
Definition slice0 {A} (l : list A) (n : Z) : list A :=
  if n <? 0 then take (length l - Z.to_nat (- n))%nat l
  else take (Z.to_nat n) l.

(** [currentPage > Math.ceil(totalRecords / rows)].  For [rows = 0] the
    quotient is [Infinity], [NaN] or [-Infinity], and only the last makes
    the comparison true. *)
Definition pastLastPage (currentPage totalRecords rows : Z) : bool :=
  if rows =? 0 then totalRecords <? 0
  else currentPage >? - ((- totalRecords) / rows).

(** The three [let] variables of [onSelectRows]. *)
Record Loop := mkLoop {
  remainingToSelect : Z;
  currentPage : Z;
  updatedSelection : gset Z
}.

(** [rowsToSelect.forEach(artwork => updatedSelection.add(artwork.id))]. *)
Definition addAll (l : list Artwork) (s : gset Z) : gset Z :=
  foldl (λ acc artwork, {[ id artwork ]} ∪ acc) s l.

(** One pass through the body of the [while]; the boolean is [true] when
    the pass ends in [break]. *)
Definition loopBody (remote : Remote) (c : State) (ls : Loop)
  : M (Loop * bool) :=
  do pageArtworks <-
    (if decide (currentPage ls = page (lazyState c)) then ret (artworks c)
     else fetchData remote 0 (rows (lazyState c)) (currentPage ls)) ;
  let unselectedArtworks :=
    filter (λ artwork, negb (isSelected c (id artwork))) pageArtworks in
  let rowsToSelect := slice0 unselectedArtworks (remainingToSelect ls) in
  let ls' :=
    {| remainingToSelect := remainingToSelect ls - Z.of_nat (length rowsToSelect);
       currentPage := currentPage ls + 1;
       updatedSelection := addAll rowsToSelect (updatedSelection ls) |} in
  ret (ls', pastLastPage (currentPage ls') (totalRecords c)
              (rows (lazyState c))).

(** [while (remainingToSelect > 0) { ... }], with [fuel] bounding the number
    of passes; [None] when the fuel runs out. *)
Fixpoint whileLoop (fuel : nat) (remote : Remote) (c : State) (ls : Loop)
  : M (option Loop) :=
  match fuel with
  | O => ret None
  | S fuel' =>
      if remainingToSelect ls >? 0 then
        do r <- loopBody remote c ls ;
        if r.2 then ret (Some r.1) else whileLoop fuel' remote c r.1
      else ret (Some ls)
  end.

(** [onSelectRows].  [op.current?.hide()] closes the overlay panel, which
    is not part of the state. *)
Definition onSelectRows (fuel : nat) (remote : Remote) (c : State)
  : M (option unit) :=
  let ls0 := {| remainingToSelect := rowCountToSelect c;
                currentPage := page (lazyState c);
                updatedSelection := selectedIds c |} in
  do r <- whileLoop fuel remote c ls0 ;
  match r with
  | Some ls => setSelectedIds (updatedSelection ls) ;; ret (Some tt)
  | None => ret None
  end.

(** [onSelectAll]: the handler adds to (or deletes from) the captured set
    and then stores a copy of it. *)
Definition onSelectAll (checked : bool) (c : State) : M unit :=
  let ids := id <$> artworks c in
  if checked then
    setSelectedIds (foldl (λ acc i, {[ i ]} ∪ acc) (selectedIds c) ids)
  else
    setSelectedIds (foldl (λ acc i, acc ∖ {[ i ]}) (selectedIds c) ids).

(** The [checked] attribute of the header checkbox. *)
Definition headerChecked (c : State) : bool :=
  (0 <? length (artworks c))%nat
  && forallb (λ artwork, bool_decide (id artwork ∈ selectedIds c))
       (artworks c).

(** [onClick={() => setSelectedIds(new Set())}]. *)
Definition onClearSelection : M unit := setSelectedIds ∅.

(** [<h3>Selected Artworks: {selectedIds.size}</h3>]. *)
Definition selectedCount (c : State) : nat := size (selectedIds c).

(** ** The loop read as a list computation

    The definitions below are the vocabulary of the statements: what a call
    of [fetchData] returns, what a page of the run holds, and the records
    the filter lets through. *)

(** The array [fetchData] resolves to. *)
Definition fetched (remote : Remote) (rows page : Z) : list Artwork :=
  match remote page rows with
  | Body (Some d) (Some _) => toArtwork <$> d
  | _ => []
  end.

(** [pageArtworks] of the pass that handles page [p]. *)
Definition pageContent (remote : Remote) (c : State) (p : Z) : list Artwork :=
  if decide (p = page (lazyState c)) then artworks c
  else fetched remote (rows (lazyState c)) p.

(** [unselectedArtworks]: the filter reads the captured [selectedIds]. *)
Definition unselected (c : State) (l : list Artwork) : list Artwork :=
  filter (λ artwork, negb (isSelected c (id artwork))) l.

(** The records a pass takes from the list [l] when [r] are still wanted:
    [rowsToSelect] for a positive [r]. *)
Definition taken (c : State) (r : Z) (l : list Artwork) : list Artwork :=
  take (Z.to_nat r) (unselected c l).

(** The loop variables after one pass. *)
Definition pass (remote : Remote) (c : State) (ls : Loop) : Loop :=
  let t := taken c (remainingToSelect ls)
             (pageContent remote c (currentPage ls)) in
  {| remainingToSelect := remainingToSelect ls - Z.of_nat (length t);
     currentPage := currentPage ls + 1;
     updatedSelection := updatedSelection ls ∪ list_to_set (id <$> t) |}.

(** The pages [p], [p+1], ..., [p+n-1] of a run, one after the other. *)
Fixpoint pagesFrom (remote : Remote) (c : State) (p : Z) (n : nat)
  : list Artwork :=
  match n with
  | O => []
  | S n' => pageContent remote c p ++ pagesFrom remote c (p + 1) n'
  end.

(** [Math.ceil(totalRecords / rows)] for a positive [rows]. *)
Definition lastPage (c : State) : Z :=
  - ((- totalRecords c) / rows (lazyState c)).

(** Passes that suffice for a run that starts on page [p]. *)
Definition passes (c : State) (p : Z) : nat :=
  S (Z.to_nat (lastPage c - p)).

(** The selection a handler leaves behind. *)
Definition selectionAfter {A} (r : A * State) : gset Z := selectedIds r.2.

(** ** The endpoint serving a fixed collection

    The contract of the external endpoint: page [p] of size [limit] is the
    [limit] records that follow the first [(p-1) * limit], and the total is
    the size of the collection. *)

Definition pageOf (coll : list RawArtwork) (limit p : Z) : list RawArtwork :=
  take (Z.to_nat limit) (drop (Z.to_nat ((p - 1) * limit)) coll).

Definition server (coll : list RawArtwork) : Remote :=
  λ p limit, Body (Some (pageOf coll limit p)) (Some (Z.of_nat (length coll))).

(** The records on page [p] and on all later pages. *)
Definition fromPage (coll : list RawArtwork) (limit p : Z) : list RawArtwork :=
  drop (Z.to_nat ((p - 1) * limit)) coll.

(** Raw records with the ids [i], [i+1], ..., used to build inputs. *)
Fixpoint rawRange (i : Z) (n : nat) : list RawArtwork :=
  match n with
  | O => []
  | S n' => mkRaw i "" "" "" None 0 0 :: rawRange (i + 1) n'
  end.

(** The [selection] prop handed to the table: the shown records whose id
    is selected. *)
Definition visibleSelection (c : State) : list Artwork :=
  filter (λ artwork, bool_decide (id artwork ∈ selectedIds c)) (artworks c).

(** [onSelectionChange]: the selection becomes the set of the ids of
    [e.value]. *)
Definition onSelectionChange (value : list Artwork) : M unit :=
  setSelectedIds (list_to_set (id <$> value)).

(** A response that sends [fetchData] into its [catch]. *)
Definition failed (r : Response) : bool :=
  match r with
  | Body (Some _) (Some _) => false
  | _ => true
  end.

(** The select-all checkbox ticked and then unticked on the same page, with
    the re-render in between. *)
Definition selectThenDeselect (c : State) : State :=
  let s1 := (onSelectAll true c c).2 in
  (onSelectAll false s1 s1).2.

(** ** Concrete inputs *)

(** The state after page [p] of [coll] was loaded with [limit] rows per
    page, with selection [sel] and [k] typed into the row-count box. *)
Definition loadedState (coll : list RawArtwork) (limit p : Z) (sel : gset Z)
    (k : Z) : State :=
  {| artworks := toArtwork <$> pageOf coll limit p;
     loading := false;
     totalRecords := Z.of_nat (length coll);
     lazyState := {| first := (p - 1) * limit; rows := limit; page := p |};
     selectedIds := sel;
     rowCountToSelect := k |}.

(** An endpoint that serves [coll] but cannot complete the call for page
    [bad]. *)
Definition failingAt (bad : Z) (coll : list RawArtwork) : Remote :=
  λ p limit, if p =? bad then Rejected else server coll p limit.

End Table.

Import Table.

(** ** Basic facts *)

Section Basics.

Implicit Types (c s : State) (l : list Artwork) (U : gset Z).

Lemma addAll_spec l U : addAll l U = U ∪ list_to_set (id <$> l).
Proof.
  unfold addAll. revert U.
  induction l as [|a l IH]; intros U; simpl.
  - set_solver.
  - rewrite IH. set_solver.
Qed.

Lemma slice0_pos {A} (l : list A) (n : Z) :
  0 <= n → slice0 l n = take (Z.to_nat n) l.
Proof. intros Hn. unfold slice0. destruct (Z.ltb_spec n 0); [lia | done]. Qed.

Lemma fetchData_fst remote f r p s :
  (fetchData remote f r p s).1 = fetched remote r p.
Proof.
  unfold fetchData, fetched, bind, ret, setLoading, setTotalRecords.
  destruct (remote p r) as [|[d|] [t|]]; reflexivity.
Qed.

Lemma fetchData_selectedIds remote f r p s :
  selectedIds (fetchData remote f r p s).2 = selectedIds s.
Proof.
  unfold fetchData, bind, ret, setLoading, setTotalRecords.
  destruct (remote p r) as [|[d|] [t|]]; reflexivity.
Qed.

Lemma fetched_failed remote r p :
  failed (remote p r) = true → fetched remote r p = [].
Proof.
  unfold failed, fetched. by destruct (remote p r) as [|[d|] [t|]].
Qed.

Lemma fetchData_totalRecords_failed remote f r p s :
  failed (remote p r) = true →
  totalRecords (fetchData remote f r p s).2 = totalRecords s.
Proof.
  unfold failed, fetchData, bind, ret, setLoading, setTotalRecords.
  by destruct (remote p r) as [|[d|] [t|]].
Qed.

Lemma take_add_drop {A} (l : list A) (n m : nat) :
  take (n + m) l = take n l ++ take m (drop n l).
Proof.
  rewrite take_drop_commute.
  rewrite <- (take_drop n (take (n + m) l)) at 1.
  rewrite take_take. by replace (n `min` (n + m))%nat with n by lia.
Qed.

Lemma unselected_app c l1 l2 :
  unselected c (l1 ++ l2) = unselected c l1 ++ unselected c l2.
Proof. apply filter_app. Qed.

Lemma elem_of_unselected c a l :
  a ∈ unselected c l ↔ (id a ∉ selectedIds c) ∧ a ∈ l.
Proof.
  unfold unselected, isSelected. rewrite list_elem_of_filter.
  rewrite negb_True, bool_decide_spec. done.
Qed.

End Basics.

(** ** One pass and the whole loop *)

Section Run.

Variables (remote : Remote) (c : State).

Lemma loopBody_pass ls s :
  0 < remainingToSelect ls →
  ∃ s1, loopBody remote c ls s =
          ((pass remote c ls, pastLastPage (currentPage ls + 1) (totalRecords c)
                       (rows (lazyState c))), s1)
        ∧ selectedIds s1 = selectedIds s.
Proof.
  intros Hr. unfold loopBody, pass, taken, pageContent, bind, ret.
  destruct (decide (currentPage ls = page (lazyState c))) as [Heq|Hne].
  - exists s. simpl. rewrite slice0_pos, addAll_spec by lia. done.
  - pose proof (fetchData_fst remote 0 (rows (lazyState c)) (currentPage ls) s)
      as Hf.
    pose proof (fetchData_selectedIds remote 0 (rows (lazyState c))
                  (currentPage ls) s) as Hs.
    destruct (fetchData remote 0 (rows (lazyState c)) (currentPage ls) s)
      as [l s1]. simpl in Hf, Hs. subst l.
    exists s1. simpl. rewrite slice0_pos, addAll_spec by lia. done.
Qed.

Lemma taken_nonpos r l : r <= 0 → taken c r l = [].
Proof.
  intros Hr. unfold taken. replace (Z.to_nat r) with 0%nat by lia. done.
Qed.

Lemma taken_app r l1 l2 :
  taken c r (l1 ++ l2) =
  taken c r l1 ++ taken c (r - Z.of_nat (length (taken c r l1))) l2.
Proof.
  unfold taken. rewrite unselected_app, take_app. f_equal. f_equal.
  rewrite length_take. lia.
Qed.

Hypothesis rows_pos : 0 < rows (lazyState c).

Lemma pastLastPage_lastPage p :
  pastLastPage p (totalRecords c) (rows (lazyState c))
  = bool_decide (lastPage c < p).
Proof.
  unfold pastLastPage, lastPage.
  destruct (Z.eqb_spec (rows (lazyState c)) 0) as [H0|_]; [lia|].
  rewrite Z.gtb_ltb. destruct (Z.ltb_spec (- (- totalRecords c / rows (lazyState c))) p);
    symmetry; [by apply bool_decide_eq_true | by apply bool_decide_eq_false; lia].
Qed.

(** The loop ends within [passes] passes, and what it selected is a prefix
    of the filtered pages read one after the other. *)
Lemma whileLoop_run (d : nat) : ∀ fuel ls s,
  Z.to_nat (lastPage c - currentPage ls) = d → (d < fuel)%nat →
  ∃ ls' s',
    whileLoop fuel remote c ls s = (Some ls', s')
    ∧ selectedIds s' = selectedIds s
    ∧ updatedSelection ls' =
        updatedSelection ls ∪
        list_to_set (id <$> taken c (remainingToSelect ls)
                              (pagesFrom remote c (currentPage ls) (S d)))
    ∧ remainingToSelect ls' =
        remainingToSelect ls
        - Z.of_nat (length (taken c (remainingToSelect ls)
                              (pagesFrom remote c (currentPage ls) (S d))))
    ∧ (remainingToSelect ls' <= 0 ∨ lastPage c < currentPage ls').
Proof.
  induction d as [|d IH]; intros fuel ls s Hd Hfuel;
    (destruct fuel as [|fuel]; [lia|]); simpl whileLoop;
    rewrite Z.gtb_ltb;
    destruct (Z.ltb_spec 0 (remainingToSelect ls)) as [Hr|Hr].
  - destruct (loopBody_pass ls s Hr) as (s1 & Hb & Hs1).
    unfold bind at 1. rewrite Hb. simpl.
    rewrite pastLastPage_lastPage, bool_decide_eq_true_2 by lia.
    exists (pass remote c ls), s1. rewrite app_nil_r. simpl. repeat split; auto. lia.
  - exists ls, s. rewrite !taken_nonpos by lia. simpl.
    repeat split; auto; [set_solver | lia].
  - destruct (loopBody_pass ls s Hr) as (s1 & Hb & Hs1).
    unfold bind at 1. rewrite Hb. simpl.
    rewrite pastLastPage_lastPage, bool_decide_eq_false_2 by lia.
    destruct (IH fuel (pass remote c ls) s1) as (ls' & s' & Hrun & Hs' & Hu & Hrem & Hstop);
      [simpl; lia | lia |].
    exists ls', s'. simpl in Hu, Hrem.
    set (t1 := taken c (remainingToSelect ls)
                 (pageContent remote c (currentPage ls))) in *.
    rewrite taken_app. fold t1.
    repeat split; auto.
    + congruence.
    + rewrite Hu, fmap_app, list_to_set_app_L. set_solver.
    + rewrite Hrem, length_app. lia.
  - exists ls, s. rewrite !taken_nonpos by lia. simpl.
    repeat split; auto; [set_solver | lia].
Qed.

(** [onSelectRows] returns, and stores the captured selection extended by
    that prefix. *)
Lemma onSelectRows_run fuel s :
  (passes c (page (lazyState c)) <= fuel)%nat →
  ∃ ls' s',
    onSelectRows fuel remote c s = (Some tt, s')
    ∧ selectedIds s' =
        selectedIds c ∪
        list_to_set (id <$> taken c (rowCountToSelect c)
                              (pagesFrom remote c (page (lazyState c))
                                 (passes c (page (lazyState c)))))
    ∧ remainingToSelect ls' =
        rowCountToSelect c
        - Z.of_nat (length (taken c (rowCountToSelect c)
                              (pagesFrom remote c (page (lazyState c))
                                 (passes c (page (lazyState c))))))
    ∧ (remainingToSelect ls' <= 0 ∨ lastPage c < currentPage ls')
    ∧ (whileLoop fuel remote c
         (mkLoop (rowCountToSelect c) (page (lazyState c)) (selectedIds c)) s).1
      = Some ls'.
Proof.
  intros Hfuel. unfold passes in *.
  destruct (whileLoop_run (Z.to_nat (lastPage c - page (lazyState c))) fuel
              (mkLoop (rowCountToSelect c) (page (lazyState c)) (selectedIds c))
              s eq_refl) as (ls' & s1 & Hrun & Hs1 & Hu & Hrem & Hstop); [lia|].
  simpl in Hu, Hrem.
  exists ls', (setSelectedIds (updatedSelection ls') s1).2.
  unfold onSelectRows, bind at 1. rewrite Hrun. simpl.
  repeat split; auto.
Qed.

End Run.

(** The positive page size matters: with [rows = 0] and [totalRecords = 0]
    the bound of the page counter is [NaN], the test never fires, and
    against an endpoint that has nothing to give the loop outlives every
    fuel. *)
Remark whileLoop_zero_rows_diverges (fuel : nat) : ∀ ls s,
  0 < remainingToSelect ls →
  (whileLoop fuel (λ _ _, Rejected) (mkState [] false 0 (mkLazy 0 0 1) ∅ 1)
     ls s).1 = None.
Proof.
  induction fuel as [|fuel IH]; intros ls s Hr; [reflexivity|].
  simpl whileLoop. rewrite Z.gtb_ltb.
  destruct (Z.ltb_spec 0 (remainingToSelect ls)) as [_|]; [|lia].
  destruct (loopBody_pass (λ _ _, Rejected)
              (mkState [] false 0 (mkLazy 0 0 1) ∅ 1) ls s Hr)
    as (s1 & Hb & _).
  unfold bind at 1. rewrite Hb. simpl. apply IH.
  assert (pageContent (λ _ _, Rejected)
            (mkState [] false 0 (mkLazy 0 0 1) ∅ 1) (currentPage ls) = [])
    as Hempty by (unfold pageContent; by destruct (decide _)).
  unfold pass, taken, unselected. rewrite Hempty, filter_nil, take_nil.
  simpl. lia.
Qed.

(** ** Runs against an endpoint that serves a fixed collection *)

Section Collection.

Variables (coll : list RawArtwork) (c : State).

Hypothesis rows_pos : 0 < rows (lazyState c).
Hypothesis page_pos : 1 <= page (lazyState c).
Hypothesis shown :
  artworks c = toArtwork <$> pageOf coll (rows (lazyState c)) (page (lazyState c)).
Hypothesis total_ok : totalRecords c = Z.of_nat (length coll).

Lemma pageContent_server p :
  pageContent (server coll) c p
  = toArtwork <$> pageOf coll (rows (lazyState c)) p.
Proof.
  unfold pageContent. destruct (decide (p = page (lazyState c))) as [->|_].
  - exact shown.
  - reflexivity.
Qed.

Lemma pagesFrom_server n : ∀ p,
  1 <= p →
  pagesFrom (server coll) c p n
  = toArtwork <$> take (n * Z.to_nat (rows (lazyState c)))
                    (drop (Z.to_nat ((p - 1) * rows (lazyState c))) coll).
Proof.
  induction n as [|n IH]; intros p Hp; simpl pagesFrom.
  - reflexivity.
  - rewrite pageContent_server, IH by lia. rewrite <- fmap_app. f_equal.
    unfold pageOf. simpl Nat.mul. rewrite take_add_drop, drop_drop.
    do 3 f_equal. nia.
Qed.

Lemma lastPage_covers p :
  1 <= p →
  (length coll - Z.to_nat ((p - 1) * rows (lazyState c))
   <= passes c p * Z.to_nat (rows (lazyState c)))%nat.
Proof.
  intros Hp. unfold passes, lastPage. rewrite total_ok.
  pose proof (Z.div_mod (- Z.of_nat (length coll)) (rows (lazyState c))) as Hdm.
  pose proof (Z.mod_pos_bound (- Z.of_nat (length coll)) (rows (lazyState c))
                rows_pos) as Hb.
  set (q := - Z.of_nat (length coll) / rows (lazyState c)) in *.
  set (m := - Z.of_nat (length coll) `mod` rows (lazyState c)) in *.
  set (R := rows (lazyState c)) in *.
  destruct (Z_le_gt_dec p (- q)) as [Hle|Hgt].
  - replace (S (Z.to_nat (- q - p))) with (Z.to_nat (- q - p + 1)) by lia.
    rewrite <- Z2Nat.inj_mul by lia. nia.
  - replace (Z.to_nat (- q - p)) with 0%nat by lia. nia.
Qed.

(** Read to the end, the pages of a run are the collection from the start
    page on. *)
Lemma pagesFrom_server_all :
  pagesFrom (server coll) c (page (lazyState c))
    (passes c (page (lazyState c)))
  = toArtwork <$> fromPage coll (rows (lazyState c)) (page (lazyState c)).
Proof.
  rewrite pagesFrom_server by done. unfold fromPage. f_equal.
  apply take_ge. rewrite length_drop. by apply lastPage_covers.
Qed.

End Collection.

(** ** Counting what a run adds *)

Section Counting.

Implicit Types (c : State) (l : list Artwork) (raws : list RawArtwork).

Lemma id_toArtwork raws : id <$> (toArtwork <$> raws) = raw_id <$> raws.
Proof. rewrite <- list_fmap_compose. by apply list_fmap_ext. Qed.

Lemma unselected_all c l :
  (∀ a, a ∈ l → id a ∉ selectedIds c) → unselected c l = l.
Proof.
  intros Hall. unfold unselected. induction l as [|a l IH]; [done|].
  rewrite filter_cons_True.
  - f_equal. apply IH. intros b Hb. apply Hall. by right.
  - unfold isSelected. rewrite negb_True, bool_decide_spec. apply Hall. left.
Qed.

Lemma taken_sublist c r l : taken c r l `sublist_of` l.
Proof.
  unfold taken, unselected. etrans; [apply sublist_take | apply sublist_filter].
Qed.

Lemma taken_fresh c r l a : a ∈ taken c r l → id a ∉ selectedIds c.
Proof.
  unfold taken. intros Ha. apply subseteq_take in Ha.
  by apply elem_of_unselected in Ha as [? _].
Qed.

Lemma taken_length c r l :
  length (taken c r l) = (Z.to_nat r `min` length (unselected c l))%nat.
Proof. unfold taken. apply length_take. Qed.

Lemma taken_all c r l :
  Z.of_nat (length (unselected c l)) <= r → taken c r l = unselected c l.
Proof. intros Hr. unfold taken. apply take_ge. lia. Qed.

(** Fresh, pairwise different ids enlarge the set by the length of the
    list. *)
Lemma size_add_fresh (U : gset Z) l :
  NoDup (id <$> l) → (∀ a, a ∈ l → id a ∉ U) →
  size (U ∪ list_to_set (id <$> l)) = (size U + length l)%nat.
Proof.
  intros Hnd Hfresh. rewrite size_union.
  - by rewrite size_list_to_set, length_fmap.
  - intros x Hx Hl.
    apply elem_of_list_to_set, list_elem_of_fmap in Hl as (a & -> & Ha).
    by apply (Hfresh a Ha).
Qed.

Lemma size_add_taken c r l :
  NoDup (id <$> l) →
  size (selectedIds c ∪ list_to_set (id <$> taken c r l))
  = (size (selectedIds c) + length (taken c r l))%nat.
Proof.
  intros Hnd. apply size_add_fresh.
  - eapply sublist_NoDup; [exact Hnd|]. apply fmap_sublist, taken_sublist.
  - intros a. apply taken_fresh.
Qed.

Lemma pagesFrom_add remote c n m : ∀ p,
  pagesFrom remote c p (n + m)
  = pagesFrom remote c p n ++ pagesFrom remote c (p + Z.of_nat n) m.
Proof.
  induction n as [|n IH]; intros p; simpl pagesFrom.
  - by rewrite Z.add_0_r.
  - rewrite IH, <- app_assoc. do 3 f_equal. lia.
Qed.

Lemma lastPage_eq c n :
  0 < rows (lazyState c) →
  (n - 1) * rows (lazyState c) < totalRecords c <= n * rows (lazyState c) →
  lastPage c = n.
Proof.
  intros Hr [Hlo Hhi]. unfold lastPage.
  pose proof (Z.div_mod (- totalRecords c) (rows (lazyState c))) as Hdm.
  pose proof (Z.mod_pos_bound (- totalRecords c) (rows (lazyState c)) Hr) as Hb.
  nia.
Qed.

Lemma size_list_to_set_le (l : list Z) :
  (size (list_to_set l : gset Z) <= length l)%nat.
Proof.
  induction l as [|x l IH].
  - rewrite list_to_set_nil, size_empty. done.
  - rewrite list_to_set_cons, size_union_alt, size_singleton. simpl length.
    pose proof (subseteq_size (list_to_set l ∖ {[x]}) (list_to_set l : gset Z)
                  ltac:(set_solver)).
    lia.
Qed.

Lemma filter_all_iff {A} (P : A → Prop) `{!∀ x, Decision (P x)} (l : list A) :
  filter P l = l ↔ ∀ x, x ∈ l → P x.
Proof.
  split.
  - intros E x Hx. rewrite <- E in Hx. by apply list_elem_of_filter in Hx as [? _].
  - intros Hall. induction l as [|a l IH]; [done|].
    rewrite filter_cons_True by (apply Hall; left). f_equal.
    apply IH. intros x Hx. apply Hall. by right.
Qed.

(** The filter of the loop, spelled out on the captured selection. *)
Lemma unselected_filter c l :
  unselected c l = filter (λ a, id a ∉ selectedIds c) l.
Proof.
  unfold unselected. apply list_filter_iff. intros a. unfold isSelected.
  by rewrite negb_True, bool_decide_spec.
Qed.

Lemma filter_toArtwork (U : gset Z) raws :
  filter (λ a, id a ∉ U) (toArtwork <$> raws)
  = toArtwork <$> filter (λ r, raw_id r ∉ U) raws.
Proof.
  induction raws as [|r raws IH]; [done|].
  rewrite fmap_cons. destruct (decide (raw_id r ∈ U)) as [Hin|Hout].
  - rewrite !filter_cons_False by (simpl; auto). exact IH.
  - rewrite !filter_cons_True by (simpl; auto). by rewrite fmap_cons, IH.
Qed.

(** One pass, in terms of the page it reads and the captured selection. *)
Lemma loopBody_filter remote c ls s :
  0 < remainingToSelect ls →
  let pg := if decide (currentPage ls = page (lazyState c)) then artworks c
            else (fetchData remote 0 (rows (lazyState c)) (currentPage ls) s).1 in
  let t := take (Z.to_nat (remainingToSelect ls))
             (filter (λ a, id a ∉ selectedIds c) pg) in
  (loopBody remote c ls s).1.1
  = mkLoop (remainingToSelect ls - Z.of_nat (length t)) (currentPage ls + 1)
      (updatedSelection ls ∪ list_to_set (id <$> t)).
Proof.
  intros Hr pg t. destruct (loopBody_pass remote c ls s Hr) as (s1 & Hb & _).
  rewrite Hb. simpl. unfold pass, taken, pageContent.
  rewrite unselected_filter. subst t pg. rewrite fetchData_fst. done.
Qed.

End Counting.

(** ** Pagination and fetching *)

(** C7. A page change never touches the membership of the selection:
    neither the [onPage] handler, nor the [fetchData] call it triggers,
    nor the two together with the [setArtworks] that follows, whatever the
    endpoint answers. *)
Theorem page_change_keeps_selection (remote : Remote) (event : PageEvent)
    (s : State) :
  selectedIds (onPage event s).2 = selectedIds s
  ∧ (∀ f r p, selectedIds (fetchData remote f r p s).2 = selectedIds s)
  ∧ selectedIds (changePage remote event s).2 = selectedIds s.
Proof.
  split; [reflexivity|]. split; [intros; apply fetchData_selectedIds|].
  unfold changePage, pageEffect, bind. cbv zeta.
  set (s1 := (onPage event s).2).
  pose proof (fetchData_selectedIds remote (first (lazyState s1))
                (rows (lazyState s1)) (page (lazyState s1)) s1) as Hs.
  destruct (fetchData remote (first (lazyState s1)) (rows (lazyState s1))
              (page (lazyState s1)) s1) as [l s2].
  simpl in *. exact Hs.
Qed.

(** C9. When a [fetchData] call completes the loading flag is [false],
    whatever the endpoint answered: a rejected call and a malformed body
    leave through the [finally] block like a good response does. *)
Theorem fetchData_clears_loading (remote : Remote) (f r p : Z) (s : State) :
  loading (fetchData remote f r p s).2 = false.
Proof.
  unfold fetchData, bind, ret, setLoading, setTotalRecords.
  destruct (remote p r) as [|[d|] [t|]]; reflexivity.
Qed.

(** C5, as the code has it. When the fetch of a page change fails, the
    caller receives the empty array and the stored total is unchanged; the
    displayed records are replaced by that empty array. *)
Theorem failed_page_fetch (remote : Remote) (c s : State) :
  failed (remote (page (lazyState c)) (rows (lazyState c))) = true →
  (fetchData remote (first (lazyState c)) (rows (lazyState c))
     (page (lazyState c)) s).1 = []
  ∧ totalRecords (pageEffect remote c s).2 = totalRecords s
  ∧ artworks (pageEffect remote c s).2 = [].
Proof.
  intros Hf. unfold pageEffect, bind.
  pose proof (fetchData_fst remote (first (lazyState c)) (rows (lazyState c))
                (page (lazyState c)) s) as H1.
  pose proof (fetchData_totalRecords_failed remote (first (lazyState c))
                (rows (lazyState c)) (page (lazyState c)) s Hf) as H2.
  rewrite (fetched_failed _ _ _ Hf) in H1.
  destruct (fetchData remote (first (lazyState c)) (rows (lazyState c))
              (page (lazyState c)) s) as [l s1].
  simpl in *. subst l. done.
Qed.

Lemma failed_page_fetch_witness :
  let c := loadedState (rawRange 1 20) 10 1 ∅ 0 in
  failed (failingAt 1 (rawRange 1 20) 1 10) = true
  ∧ totalRecords (pageEffect (failingAt 1 (rawRange 1 20)) c c).2 = 20
  ∧ artworks (pageEffect (failingAt 1 (rawRange 1 20)) c c).2 = [].
Proof.
  intros c. split; [reflexivity|].
  exact (proj2 (failed_page_fetch (failingAt 1 (rawRange 1 20)) c c eq_refl)).
Defined.

(** C5 as stated fails: ten records are on display, the fetch fails, and
    the display is empty afterwards. *)
Lemma failed_page_fetch_empties_display :
  let c := loadedState (rawRange 1 20) 10 1 ∅ 0 in
  let remote := failingAt 1 (rawRange 1 20) in
  failed (remote (page (lazyState c)) (rows (lazyState c))) = true
  ∧ length (artworks c) = 10%nat
  ∧ artworks (pageEffect remote c c).2 ≠ artworks c.
Proof. cbv zeta. split; [reflexivity|]. split; [reflexivity|]. discriminate. Qed.

(** ** The header checkbox *)

(** C8, as the code has it. The header checkbox is checked exactly when the
    page shows at least one record and every shown record is selected. *)
Theorem headerChecked_iff (c : State) :
  headerChecked c = true
  ↔ artworks c ≠ [] ∧ ∀ a, a ∈ artworks c → id a ∈ selectedIds c.
Proof.
  unfold headerChecked. rewrite andb_true_iff, Nat.ltb_lt.
  rewrite <- Is_true_true, forallb_True, Forall_forall.
  split; intros [Hn Hall]; (split; [|intros a Ha; specialize (Hall a Ha)]).
  - intros E. rewrite E in Hn. simpl in Hn. lia.
  - by apply bool_decide_unpack in Hall.
  - destruct (artworks c); [done | simpl; lia].
  - by apply bool_decide_pack.
Qed.

(** C8 as stated fails on the empty page: every shown record is selected
    (there is none), yet the checkbox is unchecked. *)
Lemma headerChecked_empty_page :
  ¬ (headerChecked initialState = true
     ↔ ∀ a, a ∈ artworks initialState → id a ∈ selectedIds initialState).
Proof.
  intros [_ H]. discriminate H. intros a Ha. simpl in Ha. by inv Ha.
Qed.

(** C4, as the code has it. Ticking and then unticking the header checkbox
    leaves the prior selection minus the ids shown on the page; that is
    the prior selection exactly when none of the shown ids was selected
    before. *)
Theorem select_deselect_all (c : State) :
  selectedIds (selectThenDeselect c)
    = selectedIds c ∖ list_to_set (id <$> artworks c)
  ∧ (selectedIds (selectThenDeselect c) = selectedIds c
     ↔ ∀ a, a ∈ artworks c → id a ∉ selectedIds c).
Proof.
  assert (Hadd : ∀ (l : list Z) (U : gset Z),
             foldl (λ acc i, {[ i ]} ∪ acc) U l = U ∪ list_to_set l).
  { induction l as [|x l IH]; intros U; simpl; [set_solver|].
    rewrite IH. set_solver. }
  assert (Hdel : ∀ (l : list Z) (U : gset Z),
             foldl (λ acc i, acc ∖ {[ i ]}) U l = U ∖ list_to_set l).
  { induction l as [|x l IH]; intros U; simpl; [set_solver|].
    rewrite IH. set_solver. }
  assert (E : selectedIds (selectThenDeselect c)
              = selectedIds c ∖ list_to_set (id <$> artworks c)).
  { unfold selectThenDeselect, onSelectAll, setSelectedIds. simpl.
    rewrite Hdel, Hadd. set_solver. }
  split; [exact E|]. rewrite E. split.
  - intros Heq a Ha Hin.
    assert (id a ∈ selectedIds c ∖ list_to_set (id <$> artworks c)) as Hd
        by (rewrite Heq; exact Hin).
    apply elem_of_difference in Hd as [_ Hd]. apply Hd.
    apply elem_of_list_to_set, list_elem_of_fmap. eauto.
  - intros Hall. apply difference_disjoint_L. intros x Hx Hl.
    apply elem_of_list_to_set, list_elem_of_fmap in Hl as (a & -> & Ha).
    by apply (Hall a Ha).
Qed.

(** C4 as stated fails when a shown record was selected beforehand: the
    round trip deselects it. *)
Lemma select_deselect_loses_prior :
  let c := loadedState (rawRange 1 10) 10 1 {[ 1 ]} 0 in
  selectedIds c = {[ 1 ]}
  ∧ selectedIds (selectThenDeselect c) ≠ selectedIds c.
Proof.
  cbv zeta. split; [reflexivity|]. intros H.
  assert (1 ∈ selectedIds (selectThenDeselect
                             (loadedState (rawRange 1 10) 10 1 {[ 1 ]} 0))) as Hin
      by (rewrite H; simpl; set_solver).
  revert Hin. apply (proj1 (bool_decide_eq_false _)). by vm_compute.
Qed.

(** ** Bulk selection *)

(** C3, as the code has it. On a page it visits, the loop takes the first
    [min remaining (number of records of the page whose id is not in the
    selection captured when the run began)] such records, in the order of
    the page, adds their ids and lowers [remainingToSelect] by that number.
    Against an endpoint that serves a collection, with the current page
    loaded, the run therefore stores the captured selection extended by
    the first [k] records, from the current page on, whose id it does not
    hold.  With 50 records served 10 per page, page 1 loaded, nothing
    selected and 15 asked for, the run selects page 1 and the first 5
    records of page 2: 15 ids. *)
Theorem bulk_select_page_prefix :
  (∀ (remote : Remote) (c : State) (ls : Loop) (s : State),
     0 < remainingToSelect ls →
     let pageArtworks :=
       if decide (currentPage ls = page (lazyState c)) then artworks c
       else (fetchData remote 0 (rows (lazyState c)) (currentPage ls) s).1 in
     let u := filter (λ a, id a ∉ selectedIds c) pageArtworks in
     let n := Z.min (remainingToSelect ls) (Z.of_nat (length u)) in
     let r := (loopBody remote c ls s).1.1 in
     updatedSelection r
       = updatedSelection ls ∪ list_to_set (id <$> take (Z.to_nat n) u)
     ∧ remainingToSelect r = remainingToSelect ls - n)
  ∧ (∀ (coll : list RawArtwork) (c : State) (fuel : nat),
       0 < rows (lazyState c) →
       1 <= page (lazyState c) →
       artworks c
         = toArtwork <$> pageOf coll (rows (lazyState c)) (page (lazyState c)) →
       totalRecords c = Z.of_nat (length coll) →
       (passes c (page (lazyState c)) <= fuel)%nat →
       ∃ s', onSelectRows fuel (server coll) c c = (Some tt, s')
         ∧ selectedIds s'
           = selectedIds c ∪
             list_to_set
               (raw_id <$>
                  take (Z.to_nat (rowCountToSelect c))
                    (filter (λ x, raw_id x ∉ selectedIds c)
                       (fromPage coll (rows (lazyState c))
                          (page (lazyState c))))))
  ∧ (∀ (coll : list RawArtwork) (fuel : nat),
       length coll = 50%nat → NoDup (raw_id <$> coll) → (5 <= fuel)%nat →
       let c := loadedState coll 10 1 ∅ 15 in
       ∃ s', onSelectRows fuel (server coll) c c = (Some tt, s')
         ∧ selectedIds s'
           = list_to_set (raw_id <$> (pageOf coll 10 1
                                        ++ take 5 (pageOf coll 10 2)))
         ∧ size (selectedIds s') = 15%nat).
Proof.
  assert (Hgen : ∀ (coll : list RawArtwork) (c : State) (fuel : nat),
       0 < rows (lazyState c) →
       1 <= page (lazyState c) →
       artworks c
         = toArtwork <$> pageOf coll (rows (lazyState c)) (page (lazyState c)) →
       totalRecords c = Z.of_nat (length coll) →
       (passes c (page (lazyState c)) <= fuel)%nat →
       ∃ s', onSelectRows fuel (server coll) c c = (Some tt, s')
         ∧ selectedIds s'
           = selectedIds c ∪
             list_to_set
               (raw_id <$>
                  take (Z.to_nat (rowCountToSelect c))
                    (filter (λ x, raw_id x ∉ selectedIds c)
                       (fromPage coll (rows (lazyState c))
                          (page (lazyState c)))))).
  { intros coll c fuel Hrows Hpage Hshown Htotal Hfuel.
    destruct (onSelectRows_run (server coll) c Hrows fuel c Hfuel)
      as (ls' & s' & Hrun & Hsel & _).
    rewrite (pagesFrom_server_all coll c Hrows Hpage Hshown Htotal) in Hsel.
    exists s'. split; [exact Hrun|]. rewrite Hsel. unfold taken.
    by rewrite unselected_filter, filter_toArtwork, <- fmap_take, id_toArtwork. }
  split; [|split; [exact Hgen|]].
  - intros remote c ls s Hr pageArtworks u n r.
    pose proof (loopBody_filter remote c ls s Hr) as Hb. cbv zeta in Hb.
    fold pageArtworks in Hb. fold u in Hb. subst r. rewrite Hb. simpl.
    assert (take (Z.to_nat (remainingToSelect ls)) u = take (Z.to_nat n) u) as ->.
    { subst n. destruct (Z.min_spec (remainingToSelect ls) (Z.of_nat (length u)))
        as [[_ ->]|[Hle ->]]; [done|].
      rewrite Nat2Z.id, !take_ge; [done | lia | lia]. }
    split; [done|]. rewrite length_take. lia.
  - intros coll fuel Hlen Hnd Hfuel c.
    assert (Hp : passes c (page (lazyState c)) = 5%nat).
    { unfold passes. rewrite (lastPage_eq c 5); [done | done |].
      simpl. rewrite Hlen. lia. }
    destruct (Hgen coll c fuel) as (s' & Hrun & Hsel);
      [done | done | done | done | rewrite Hp; lia |].
    assert (Hsel' : selectedIds s' = ∅ ∪ list_to_set (raw_id <$> take 15 coll)).
    { rewrite Hsel. simpl. do 4 f_equal. unfold fromPage. simpl drop.
      apply filter_all_iff. intros x _. set_solver. }
    clear Hsel. rename Hsel' into Hsel.
    assert (Hpg : pageOf coll 10 1 ++ take 5 (pageOf coll 10 2) = take 15 coll).
    { unfold pageOf. simpl drop. rewrite take_take.
      change (Z.to_nat ((2 - 1) * 10)%Z) with 10%nat.
      change (Z.to_nat 10%Z) with 10%nat.
      change (5 `min` 10)%nat with 5%nat.
      symmetry. exact (take_add_drop coll 10 5). }
    exists s'. rewrite Hpg, Hsel. split; [done|]. split; [set_solver|].
    rewrite union_empty_l_L, size_list_to_set.
    + rewrite length_fmap, length_take. lia.
    + eapply sublist_NoDup; [exact Hnd|]. apply fmap_sublist, sublist_take.
Qed.

Lemma bulk_select_page_prefix_witness :
  let coll := rawRange 1 50 in
  let c := loadedState coll 10 1 ∅ 15 in
  let c' := loadedState coll 10 2 {[ 12; 14; 31 ]} 12 in
  (0 < 5
   ∧ elements (updatedSelection
                 (loopBody (server coll) c' (mkLoop 5 3 {[ 12; 14; 31; 40 ]})
                    c').1.1)
     = elements ({[ 12; 14; 31; 40; 21; 22; 23; 24; 25 ]} : gset Z)
   ∧ remainingToSelect
       (loopBody (server coll) c' (mkLoop 20 4 {[ 12; 14; 31 ]}) c').1.1 = 11)
  ∧ (∃ s', onSelectRows 4 (server coll) c' c' = (Some tt, s')
       ∧ elements (selectedIds s')
         = elements ({[ 12; 14; 31; 11; 13; 15; 16; 17; 18; 19; 20; 21;
                        22; 23; 24 ]} : gset Z))
  ∧ (length coll = 50%nat ∧ NoDup (raw_id <$> coll)
     ∧ ∃ s', onSelectRows 5 (server coll) c c = (Some tt, s')
         ∧ selectedIds s'
           = list_to_set (raw_id <$> (pageOf coll 10 1
                                        ++ take 5 (pageOf coll 10 2)))
         ∧ size (selectedIds s') = 15%nat).
Proof.
  intros coll c c'.
  assert (Hnd : NoDup (raw_id <$> coll)).
  { apply (bool_decide_unpack _). by vm_compute. }
  split; [|split].
  - split; [lia|]. split.
    + rewrite (proj1 (proj1 bulk_select_page_prefix (server coll) c'
                        (mkLoop 5 3 {[ 12; 14; 31; 40 ]}) c'
                        ltac:(simpl; lia))).
      by vm_compute.
    + rewrite (proj2 (proj1 bulk_select_page_prefix (server coll) c'
                        (mkLoop 20 4 {[ 12; 14; 31 ]}) c'
                        ltac:(simpl; lia))).
      by vm_compute.
  - destruct (proj1 (proj2 bulk_select_page_prefix) coll c' 4%nat)
      as (s' & Hrun & Hsel);
      [simpl; lia | simpl; lia | reflexivity | reflexivity | vm_compute; lia |].
    exists s'. split; [exact Hrun|]. rewrite Hsel. by vm_compute.
  - split; [reflexivity|]. split; [exact Hnd|].
    exact (proj2 (proj2 bulk_select_page_prefix) coll 5%nat eq_refl Hnd
             (le_n 5)).
Defined.

(** C3 as stated fails when a page repeats an id that the run has already
    added.  Page 1 shows 7 and 9, page 2 holds 7 and 8, nothing was
    selected and 3 rows are asked for.  After page 1 one row is still
    wanted, and 8 is the one record of page 2 that is not yet selected;
    the pass over page 2 takes 7 again, and the run ends without 8. *)
Lemma bulk_select_retakes_added_record :
  let raw i := mkRaw i "" "" "" None 0 0 in
  let remote : Remote := λ _ _, Body (Some [raw 7; raw 8]) (Some 4) in
  let c := mkState (toArtwork <$> [raw 7; raw 9]) false 4 (mkLazy 0 2 1) ∅ 3 in
  let ls := (loopBody remote c (mkLoop 3 1 ∅) c).1.1 in
  let page2 := (fetchData remote 0 2 2 c).1 in
  (remainingToSelect ls = 1 ∧ currentPage ls = 2
   ∧ elements (updatedSelection ls) = elements ({[ 7; 9 ]} : gset Z))
  ∧ id <$> filter (λ a, id a ∉ updatedSelection ls) page2 = [8]
  ∧ Z.min (remainingToSelect ls) 1 = 1
  ∧ (8 ∉ updatedSelection (loopBody remote c ls c).1.1)
  ∧ remainingToSelect (loopBody remote c ls c).1.1 = 0
  ∧ (onSelectRows 2 remote c c).1 = Some tt
  ∧ (8 ∉ selectionAfter (onSelectRows 2 remote c c)).
Proof.
  cbv zeta. split; [by vm_compute|]. split; [by vm_compute|].
  split; [reflexivity|]. split.
  { apply (proj1 (bool_decide_eq_false _)). by vm_compute. }
  split; [by vm_compute|]. split; [by vm_compute|].
  apply (proj1 (bool_decide_eq_false _)). by vm_compute.
Qed.

(** C10. Within a run the filter reads the selection captured when the run
    began, not the set the run is building.  A pass takes a prefix of the
    records of its page whose id is not in the captured [selectedIds],
    whatever [updatedSelection] holds: a record whose id is in the captured
    selection is never taken, and a record whose id is not is kept by the
    filter even when the run has already added that id.  Such a record,
    wherever it stands on the page, uses up one of the rows still wanted
    while the set does not grow by it; over the whole run the rows used up
    are counted on the pages read one after the other, repeats
    included. *)
Theorem filter_reads_captured_selection :
  (∀ (remote : Remote) (c : State) (ls : Loop) (s : State),
     0 < remainingToSelect ls →
     let pageArtworks :=
       if decide (currentPage ls = page (lazyState c)) then artworks c
       else (fetchData remote 0 (rows (lazyState c)) (currentPage ls) s).1 in
     let kept := filter (λ a, id a ∉ selectedIds c) pageArtworks in
     let t := take (Z.to_nat (remainingToSelect ls)) kept in
     let r := (loopBody remote c ls s).1.1 in
     (∀ U, remainingToSelect
             (loopBody remote c
                (mkLoop (remainingToSelect ls) (currentPage ls) U) s).1.1
           = remainingToSelect ls - Z.of_nat (length t))
     ∧ remainingToSelect r = remainingToSelect ls - Z.of_nat (length t)
     ∧ updatedSelection r = updatedSelection ls ∪ list_to_set (id <$> t)
     ∧ (∀ a, a ∈ pageArtworks → id a ∈ selectedIds c → a ∉ t)
     ∧ (∀ a, a ∈ pageArtworks → id a ∉ selectedIds c → a ∈ kept)
     ∧ (∀ a, a ∈ t → id a ∈ updatedSelection ls →
          (size (updatedSelection r)
           < size (updatedSelection ls) + length t)%nat))
  ∧ (∀ (remote : Remote) (c s : State) (fuel : nat),
       0 < rows (lazyState c) →
       (passes c (page (lazyState c)) <= fuel)%nat →
       let T := take (Z.to_nat (rowCountToSelect c))
                  (filter (λ a, id a ∉ selectedIds c)
                     (pagesFrom remote c (page (lazyState c))
                        (passes c (page (lazyState c))))) in
       ∃ ls' s',
         (whileLoop fuel remote c
            (mkLoop (rowCountToSelect c) (page (lazyState c)) (selectedIds c))
            s).1 = Some ls'
         ∧ onSelectRows fuel remote c s = (Some tt, s')
         ∧ remainingToSelect ls' = rowCountToSelect c - Z.of_nat (length T)
         ∧ selectedIds s' = selectedIds c ∪ list_to_set (id <$> T)).
Proof.
  split.
  - intros remote c ls s Hr pageArtworks kept t r.
    pose proof (loopBody_filter remote c ls s Hr) as Hb. cbv zeta in Hb.
    fold pageArtworks in Hb. fold kept in Hb. fold t in Hb.
    split; [|split; [|split; [|split; [|split]]]].
    + intros U.
      pose proof (loopBody_filter remote c
                    (mkLoop (remainingToSelect ls) (currentPage ls) U) s Hr)
        as HbU. cbv zeta in HbU. simpl in HbU.
      fold pageArtworks in HbU. fold kept in HbU. fold t in HbU.
      by rewrite HbU.
    + subst r. by rewrite Hb.
    + subst r. by rewrite Hb.
    + intros a _ Hsel Ht. subst t. apply subseteq_take in Ht. subst kept.
      by apply list_elem_of_filter in Ht as [Hn _].
    + intros a Ha Hn. subst kept. by apply list_elem_of_filter.
    + intros a Ha Hacc. subst r. rewrite Hb. simpl.
      rewrite size_union_alt.
      assert (Hin : id a ∈ (list_to_set (id <$> t) : gset Z)).
      { apply elem_of_list_to_set, list_elem_of_fmap. eauto. }
      pose proof (size_list_to_set_le (id <$> t)) as H3.
      rewrite length_fmap in H3.
      set (X := (list_to_set (id <$> t) : gset Z)) in *. clearbody X.
      assert (H1 : (size (X ∖ updatedSelection ls) <= size (X ∖ {[ id a ]}))%nat)
        by (apply subseteq_size; set_solver).
      assert (H2 : size (X ∖ {[ id a ]}) = (size X - size ({[ id a ]} : gset Z))%nat)
        by (apply size_difference; set_solver).
      rewrite size_singleton in H2.
      assert (size X ≠ 0)%nat by (apply size_non_empty_iff; set_solver).
      lia.
  - intros remote c s fuel Hrows Hfuel T.
    destruct (onSelectRows_run remote c Hrows fuel s Hfuel)
      as (ls' & s' & Hrun & Hsel & Hrem & _ & Hloop).
    unfold taken in Hsel, Hrem. rewrite unselected_filter in Hsel, Hrem.
    fold T in Hsel, Hrem. exists ls', s'. done.
Qed.

Lemma filter_reads_captured_selection_witness :
  let raw i := mkRaw i "" "" "" None 0 0 in
  let remote : Remote :=
    λ _ _, Body (Some [raw 5; raw 8; raw 7; raw 6]) (Some 8) in
  let c := mkState (toArtwork <$> [raw 5; raw 7; raw 9]) false 8
             (mkLazy 0 4 1) {[ 5 ]} 5 in
  let ls := mkLoop 3 2 {[ 5; 7; 9 ]} in
  let r := (loopBody remote c ls c).1.1 in
  (0 < remainingToSelect ls
   ∧ remainingToSelect r = 0
   ∧ (size (updatedSelection r) < 3 + 3)%nat
   ∧ elements (updatedSelection r)
     = elements ({[ 5; 7; 9; 8; 6 ]} : gset Z))
  ∧ (0 < rows (lazyState c)
     ∧ ∃ ls' s', (whileLoop 2 remote c (mkLoop 5 1 {[ 5 ]}) c).1 = Some ls'
         ∧ onSelectRows 2 remote c c = (Some tt, s')
         ∧ remainingToSelect ls' = 5 - 5
         ∧ size (selectedIds s') = 5%nat).
Proof.
  intros raw remote c ls r.
  assert (Hr : 0 < remainingToSelect ls) by (simpl; lia).
  destruct (proj1 filter_reads_captured_selection remote c ls c Hr)
    as (_ & Hrem & Hupd & _ & _ & Hsize).
  split.
  - split; [exact Hr|]. split; [exact Hrem|]. split.
    + refine (Hsize (toArtwork (raw 7)) _ _).
      * vm_compute. right. left.
      * apply (bool_decide_unpack _). by vm_compute.
    + fold r in Hupd. rewrite Hupd. by vm_compute.
  - split; [simpl; lia|].
    destruct (proj2 filter_reads_captured_selection remote c c 2%nat)
      as (ls' & s' & Hloop & Hrun & Hrem' & Hsel); [simpl; lia | vm_compute; lia |].
    exists ls', s'. split; [exact Hloop|]. split; [exact Hrun|].
    split; [exact Hrem'|]. rewrite Hsel. by vm_compute.
Defined.

(** A whole run in which both pages hold the record 7: two rows are asked
    for, the record is taken twice, the loop ends with nothing left to
    select, and the selection has one element. *)
Example duplicate_id_counted_twice :
  let remote : Remote := λ _ _, Body (Some [mkRaw 7 "" "" "" None 0 0]) (Some 2) in
  let c := mkState [toArtwork (mkRaw 7 "" "" "" None 0 0)] false 2
             (mkLazy 0 1 1) ∅ 2 in
  (remainingToSelect <$>
     (whileLoop 2 remote c (mkLoop 2 1 ∅) c).1) = Some 0
  ∧ elements (selectionAfter (onSelectRows 2 remote c c)) = [7].
Proof. by vm_compute. Qed.

(** C2, as the code has it. Against an endpoint that serves a collection of
    records with pairwise different ids, with the current page loaded, a
    run enlarges the selection by exactly the smaller of [k] (or 0 for a
    negative [k]) and the number of unselected records on the current page
    and the pages after it; what was selected stays selected; [k <= 0]
    changes nothing. *)
Theorem bulk_select_count (coll : list RawArtwork) (c : State) (fuel : nat) :
  0 < rows (lazyState c) →
  1 <= page (lazyState c) →
  artworks c
    = toArtwork <$> pageOf coll (rows (lazyState c)) (page (lazyState c)) →
  totalRecords c = Z.of_nat (length coll) →
  NoDup (raw_id <$> coll) →
  (passes c (page (lazyState c)) <= fuel)%nat →
  ∃ s', onSelectRows fuel (server coll) c c = (Some tt, s')
    ∧ size (selectedIds s')
      = (size (selectedIds c)
         + Z.to_nat (rowCountToSelect c)
           `min` length (unselected c
                           (toArtwork <$> fromPage coll (rows (lazyState c))
                                            (page (lazyState c)))))%nat
    ∧ selectedIds c ⊆ selectedIds s'
    ∧ (rowCountToSelect c <= 0 → selectedIds s' = selectedIds c).
Proof.
  intros Hrows Hpage Hshown Htotal Hnd Hfuel.
  destruct (onSelectRows_run (server coll) c Hrows fuel c Hfuel)
    as (ls' & s' & Hrun & Hsel & _).
  rewrite (pagesFrom_server_all coll c Hrows Hpage Hshown Htotal) in Hsel.
  exists s'. split; [exact Hrun|]. rewrite Hsel. split; [|split].
  - rewrite size_add_taken, taken_length; [done|].
    rewrite id_toArtwork. eapply sublist_NoDup; [exact Hnd|].
    apply fmap_sublist, sublist_drop.
  - set_solver.
  - intros Hk. rewrite taken_nonpos by done. set_solver.
Qed.

Lemma bulk_select_count_witness :
  let coll := rawRange 1 50 in
  let c := loadedState coll 10 2 {[ 12; 48 ]} 100 in
  NoDup (raw_id <$> coll)
  ∧ ∃ s', onSelectRows 4 (server coll) c c = (Some tt, s')
      ∧ size (selectedIds s') = (2 + 100 `min` 38)%nat.
Proof.
  intros coll c.
  assert (Hnd : NoDup (raw_id <$> coll)).
  { apply (bool_decide_unpack _). by vm_compute. }
  split; [exact Hnd|].
  destruct (bulk_select_count coll c 4) as (s' & Hrun & Hsize & _);
    [simpl; lia | simpl; lia | reflexivity | reflexivity | exact Hnd
    | vm_compute; lia |].
  exists s'. split; [exact Hrun|]. exact Hsize.
Defined.

(** C2 as stated fails when the run starts after page 1: 20 records, none
    selected, page 2 loaded, 15 asked for.  The whole collection holds 20
    unselected records, yet the selection grows by 10. *)
Lemma bulk_select_skips_earlier_pages :
  let coll := rawRange 1 20 in
  let c := loadedState coll 10 2 ∅ 15 in
  let r := onSelectRows 2 (server coll) c c in
  r.1 = Some tt
  ∧ length (unselected c (toArtwork <$> coll)) = 20%nat
  ∧ size (selectionAfter r) = 10%nat
  ∧ size (selectionAfter r)
    ≠ (size (selectedIds c)
       + Z.to_nat 15 `min` length (unselected c (toArtwork <$> coll)))%nat.
Proof. cbv zeta. by vm_compute. Qed.




(** C1, as the code has it. A fetch that fails inside the loop yields an
    empty page: the pass selects nothing, [remainingToSelect] and what the
    run has selected so far are kept, and the loop goes on with the next
    page unless the page counter has passed the last page.  Whatever the
    endpoint does, the run returns, and what the first [n] passes selected
    is in the final selection.  With 10 rows per page, pages 1 and 2
    contributing 10 unselected records each, 25 asked for and the fetch of
    page 3 failing, the run adds those 20 records when page 3 is the last
    page. *)
Theorem failed_fetch_in_loop :
  (∀ (remote : Remote) (c : State) (ls : Loop) (s : State),
     0 < remainingToSelect ls →
     currentPage ls ≠ page (lazyState c) →
     failed (remote (currentPage ls) (rows (lazyState c))) = true →
     (loopBody remote c ls s).1
     = (mkLoop (remainingToSelect ls) (currentPage ls + 1)
          (updatedSelection ls),
        pastLastPage (currentPage ls + 1) (totalRecords c)
          (rows (lazyState c))))
  ∧ (∀ (remote : Remote) (c s : State) (fuel n : nat),
       0 < rows (lazyState c) →
       (passes c (page (lazyState c)) <= fuel)%nat →
       (n <= passes c (page (lazyState c)))%nat →
       ∃ s', onSelectRows fuel remote c s = (Some tt, s')
         ∧ selectedIds c ⊆ selectedIds s'
         ∧ list_to_set
             (id <$> taken c (rowCountToSelect c)
                       (pagesFrom remote c (page (lazyState c)) n))
           ⊆ selectedIds s')
  ∧ (∀ (remote : Remote) (c : State) (p2 : list Artwork) (fuel : nat),
       rows (lazyState c) = 10 →
       page (lazyState c) = 1 →
       20 < totalRecords c <= 30 →
       rowCountToSelect c = 25 →
       fetched remote 10 2 = p2 →
       failed (remote 3 10) = true →
       length (artworks c) = 10%nat →
       length p2 = 10%nat →
       NoDup (id <$> artworks c ++ p2) →
       (∀ a, a ∈ artworks c ++ p2 → id a ∉ selectedIds c) →
       (3 <= fuel)%nat →
       ∃ s', onSelectRows fuel remote c c = (Some tt, s')
         ∧ selectedIds s'
           = selectedIds c ∪ list_to_set (id <$> artworks c ++ p2)
         ∧ size (selectedIds s') = (size (selectedIds c) + 20)%nat).
Proof.
  split; [|split].
  - intros remote c ls s Hr Hne Hfail.
    destruct (loopBody_pass remote c ls s Hr) as (s1 & Hb & _).
    rewrite Hb. simpl. f_equal. unfold pass, pageContent.
    rewrite decide_False by done. rewrite (fetched_failed _ _ _ Hfail).
    unfold taken, unselected. rewrite filter_nil, take_nil. simpl.
    rewrite Z.sub_0_r, union_empty_r_L. by destruct ls.
  - intros remote c s fuel n Hrows Hfuel Hn.
    destruct (onSelectRows_run remote c Hrows fuel s Hfuel)
      as (ls' & s' & Hrun & Hsel & _).
    exists s'. split; [exact Hrun|]. rewrite Hsel. split; [set_solver|].
    replace (passes c (page (lazyState c)))
      with (n + (passes c (page (lazyState c)) - n))%nat by lia.
    rewrite pagesFrom_add, taken_app, fmap_app, list_to_set_app_L.
    set_solver.
  - intros remote c p2 fuel Hrows Hpage Htotal Hk Hp2 Hfail Hl1 Hl2 Hnd Hfresh
      Hfuel.
    assert (Hrows' : 0 < rows (lazyState c)) by lia.
    assert (Hp : passes c (page (lazyState c)) = 3%nat).
    { unfold passes. rewrite (lastPage_eq c 3), Hpage; [done | done | lia]. }
    destruct (onSelectRows_run remote c Hrows' fuel c)
      as (ls' & s' & Hrun & Hsel & _); [lia|].
    assert (Hpages : pagesFrom remote c (page (lazyState c))
                       (passes c (page (lazyState c))) = artworks c ++ p2).
    { rewrite Hp, Hpage. simpl. unfold pageContent. rewrite Hpage, Hrows.
      rewrite decide_True, !decide_False by done.
      change (1 + 1) with 2. change (2 + 1) with 3.
      rewrite Hp2, (fetched_failed _ _ _ Hfail). simpl. by rewrite app_nil_r. }
    rewrite Hpages in Hsel.
    assert (Htk : taken c (rowCountToSelect c) (artworks c ++ p2)
                  = artworks c ++ p2).
    { rewrite taken_all; rewrite unselected_all by done; [done|].
      rewrite length_app. lia. }
    exists s'. split; [exact Hrun|].
    rewrite Hsel, Htk. split; [done|].
    rewrite size_add_fresh by done. rewrite length_app. lia.
Qed.

Lemma failed_fetch_in_loop_witness :
  let coll := rawRange 1 30 in
  let remote := failingAt 3 coll in
  let c := loadedState coll 10 1 ∅ 25 in
  failed (remote 3 10) = true
  ∧ (loopBody remote c (mkLoop 5 3 ∅) c).1 = (mkLoop 5 4 ∅, true)
  ∧ (∃ s', onSelectRows 3 remote c c = (Some tt, s')
           ∧ list_to_set (id <$> taken c 25 (pagesFrom remote c 1 2))
             ⊆ selectedIds s')
  ∧ (∃ s', onSelectRows 3 remote c c = (Some tt, s')
           ∧ size (selectedIds s') = 20%nat).
Proof.
  intros coll remote c.
  assert (Hnd : NoDup (id <$> artworks c ++ fetched remote 10 2)).
  { apply (bool_decide_unpack _). by vm_compute. }
  split; [reflexivity|]. split; [|split].
  - exact (proj1 failed_fetch_in_loop remote c (mkLoop 5 3 ∅) c
             ltac:(simpl; lia) ltac:(simpl; lia) eq_refl).
  - destruct (proj1 (proj2 failed_fetch_in_loop) remote c c 3%nat 2%nat)
      as (s' & Hrun & _ & Hsub);
      [simpl; lia | vm_compute; lia | vm_compute; lia |].
    exists s'. split; [exact Hrun | exact Hsub].
  - destruct (proj2 (proj2 failed_fetch_in_loop) remote c
                (fetched remote 10 2) 3%nat)
      as (s' & Hrun & _ & Hsize);
      [reflexivity | reflexivity | simpl; lia | reflexivity | reflexivity
      | reflexivity | reflexivity | reflexivity | exact Hnd
      | intros a _; simpl; set_solver | lia |].
    exists s'. split; [exact Hrun | exact Hsize].
Defined.

(** C1 as stated fails when the failing page is not the last one: 40
    records, 10 per page, page 1 loaded, nothing selected, 25 asked for,
    and the fetch of page 3 fails.  The run goes on to page 4 and ends
    with 25 records selected, record 31 of page 4 among them. *)
Lemma failed_fetch_does_not_stop :
  let coll := rawRange 1 40 in
  let remote := failingAt 3 coll in
  let c := loadedState coll 10 1 ∅ 25 in
  let r := onSelectRows 4 remote c c in
  failed (remote 3 10) = true
  ∧ length (unselected c (pageContent remote c 1)) = 10%nat
  ∧ length (unselected c (pageContent remote c 2)) = 10%nat
  ∧ r.1 = Some tt
  ∧ size (selectionAfter r) = 25%nat
  ∧ size (selectionAfter r) ≠ 20%nat
  ∧ raw_id <$> pageOf coll 10 4 !! 0%nat = Some 31
  ∧ 31 ∈ selectionAfter r.
Proof.
  cbv zeta. repeat (split; [by vm_compute|]).
  apply (bool_decide_unpack _). by vm_compute.
Qed.

(** ** Further properties of the handlers *)

Section Frames.

Implicit Types (c s : State) (remote : Remote).

Lemma fetchData_frame remote f r p s :
  artworks (fetchData remote f r p s).2 = artworks s
  ∧ lazyState (fetchData remote f r p s).2 = lazyState s
  ∧ rowCountToSelect (fetchData remote f r p s).2 = rowCountToSelect s.
Proof.
  unfold fetchData, bind, ret, setLoading, setTotalRecords.
  destruct (remote p r) as [|[d|] [t|]]; done.
Qed.

Lemma loopBody_frame remote c ls s :
  artworks (loopBody remote c ls s).2 = artworks s
  ∧ lazyState (loopBody remote c ls s).2 = lazyState s
  ∧ rowCountToSelect (loopBody remote c ls s).2 = rowCountToSelect s.
Proof.
  unfold loopBody, bind, ret.
  destruct (decide (currentPage ls = page (lazyState c))); [done|].
  pose proof (fetchData_frame remote 0 (rows (lazyState c)) (currentPage ls) s)
    as Hf.
  by destruct (fetchData remote 0 (rows (lazyState c)) (currentPage ls) s).
Qed.

Lemma whileLoop_frame remote c fuel : ∀ ls s,
  artworks (whileLoop fuel remote c ls s).2 = artworks s
  ∧ lazyState (whileLoop fuel remote c ls s).2 = lazyState s
  ∧ rowCountToSelect (whileLoop fuel remote c ls s).2 = rowCountToSelect s.
Proof.
  induction fuel as [|fuel IH]; intros ls s; [done|].
  simpl whileLoop. destruct (remainingToSelect ls >? 0); [|done].
  unfold bind.
  pose proof (loopBody_frame remote c ls s) as (Ha & Hl & Hk).
  destruct (loopBody remote c ls s) as [[ls1 brk] s1]. simpl in *.
  destruct brk; [done|].
  destruct (IH ls1 s1) as (Ha' & Hl' & Hk'). split; [|split]; congruence.
Qed.

Lemma onSelectRows_artworks remote c fuel s :
  artworks (onSelectRows fuel remote c s).2 = artworks s.
Proof.
  unfold onSelectRows, bind.
  pose proof (whileLoop_frame remote c fuel
                (mkLoop (rowCountToSelect c) (page (lazyState c))
                   (selectedIds c)) s) as (Hf & _).
  destruct (whileLoop fuel remote c _ s) as [[ls|] s1]; exact Hf.
Qed.

Lemma foldl_add_spec (l : list Z) : ∀ U : gset Z,
  foldl (λ acc i, {[ i ]} ∪ acc) U l = U ∪ list_to_set l.
Proof.
  induction l as [|x l IH]; intros U; simpl; [set_solver|].
  rewrite IH. set_solver.
Qed.

Lemma foldl_del_spec (l : list Z) : ∀ U : gset Z,
  foldl (λ acc i, acc ∖ {[ i ]}) U l = U ∖ list_to_set l.
Proof.
  induction l as [|x l IH]; intros U; simpl; [set_solver|].
  rewrite IH. set_solver.
Qed.

Lemma pagesFrom_ext remote1 remote2 c n : ∀ p,
  (∀ q, p <= q < p + Z.of_nat n →
        pageContent remote1 c q = pageContent remote2 c q) →
  pagesFrom remote1 c p n = pagesFrom remote2 c p n.
Proof.
  induction n as [|n IH]; intros p Hext; [done|]. simpl pagesFrom.
  rewrite Hext by lia. f_equal. apply IH. intros q Hq. apply Hext. lia.
Qed.

Lemma headerChecked_true c :
  artworks c ≠ [] → (∀ a, a ∈ artworks c → id a ∈ selectedIds c) →
  headerChecked c = true.
Proof.
  intros Hne Hall. unfold headerChecked. apply andb_true_iff. split.
  - apply Nat.ltb_lt. destruct (artworks c); [done | simpl; lia].
  - apply Is_true_true, forallb_True, Forall_forall. intros a Ha.
    apply bool_decide_pack. by apply Hall.
Qed.

Lemma headerChecked_iff_aux c :
  headerChecked c = true →
  artworks c ≠ [] ∧ ∀ a, a ∈ artworks c → id a ∈ selectedIds c.
Proof.
  unfold headerChecked. rewrite andb_true_iff, Nat.ltb_lt.
  rewrite <- Is_true_true, forallb_True, Forall_forall.
  intros [Hn Hall]. split.
  - intros E. rewrite E in Hn. simpl in Hn. lia.
  - intros a Ha. specialize (Hall a Ha). by apply bool_decide_unpack in Hall.
Qed.

End Frames.

(** X1. On a well-formed response [fetchData] returns one record for each
    element of [data.data], in the same order.  Each record carries the id,
    title, place of origin, artist and dates of its element; its
    [inscriptions] is the element's when that is a non-empty string, and
    ["N/A"] when it is [null] or the empty string.  The call stores
    [pagination.total] and leaves the loading flag cleared. *)
Theorem fetchData_success (remote : Remote) (f r p : Z) (s : State)
    (d : list RawArtwork) (t : Z) :
  remote p r = Body (Some d) (Some t) →
  let res := fetchData remote f r p s in
  Forall2 (λ x a,
      id a = raw_id x
      ∧ title a = raw_title x
      ∧ place_of_origin a = raw_place_of_origin x
      ∧ artist_display a = raw_artist_display x
      ∧ date_start a = raw_date_start x
      ∧ date_end a = raw_date_end x
      ∧ (raw_inscriptions x = None ∨ raw_inscriptions x = Some ""
         → inscriptions a = "N/A")
      ∧ (∀ str, raw_inscriptions x = Some str → str ≠ ""
         → inscriptions a = str))
    d res.1
  ∧ totalRecords res.2 = t
  ∧ loading res.2 = false.
Proof.
  intros Hresp res.
  assert (E : res = (toArtwork <$> d,
                     (setLoading false (setTotalRecords t
                                          (setLoading true s).2).2).2)).
  { unfold res, fetchData, bind, ret. simpl. by rewrite Hresp. }
  rewrite E. simpl. split; [|done].
  apply Forall2_fmap_r, Forall_Forall2_diag, Forall_forall. intros x _.
  unfold toArtwork. simpl. repeat (split; [done|]). split.
  - by intros [-> | ->].
  - intros str -> Hne. by destruct str.
Qed.

Lemma fetchData_success_witness :
  let coll := [mkRaw 4 "a" "b" "c" (Some "") 1 2; mkRaw 9 "" "" "" None 0 0;
               mkRaw 6 "t" "" "" (Some "signed") 3 4] in
  let res := fetchData (server coll) 0 10 1 initialState in
  server coll 1 10 = Body (Some coll) (Some 3)
  ∧ (id <$> res.1 = [4; 9; 6]
     ∧ inscriptions <$> res.1 = ["N/A"; "N/A"; "signed"])
  ∧ totalRecords res.2 = 3.
Proof.
  intros coll res. split; [reflexivity|].
  destruct (fetchData_success (server coll) 0 10 1 initialState coll 3 eq_refl)
    as (Hall & Ht & _).
  split; [|exact Ht]. fold res in Hall.
  destruct (res.1) as [|a1 [|a2 [|a3 [|a4 l]]]] eqn:E;
    try (apply Forall2_length in Hall; simpl in Hall; discriminate).
  apply Forall2_cons in Hall as [H1 Hall].
  apply Forall2_cons in Hall as [H2 Hall].
  apply Forall2_cons in Hall as [H3 _].
  destruct H1 as (I1 & _ & _ & _ & _ & _ & N1 & _).
  destruct H2 as (I2 & _ & _ & _ & _ & _ & N2 & _).
  destruct H3 as (I3 & _ & _ & _ & _ & _ & _ & N3).
  simpl in *. rewrite I1, I2, I3, (N1 (or_intror eq_refl)),
    (N2 (or_introl eq_refl)), (N3 "signed" eq_refl ltac:(discriminate)).
  done.
Defined.

(** X2. [onPage] stores the offset and the page size of the event, and for
    a positive page size and a non-negative offset the page it computes is
    the one page [p >= 1] whose range [(p-1)*rows .. p*rows - 1] holds the
    offset. *)
Theorem onPage_page (event : PageEvent) (s : State) :
  0 < ev_rows event → 0 <= ev_first event →
  let l := lazyState (onPage event s).2 in
  first l = ev_first event
  ∧ rows l = ev_rows event
  ∧ 1 <= page l
  ∧ ∀ p, page l = p ↔ (p - 1) * rows l <= first l < p * rows l.
Proof.
  intros Hr Hf l. subst l. simpl.
  pose proof (Z.div_mod (ev_first event) (ev_rows event)) as Hdm.
  pose proof (Z.mod_pos_bound (ev_first event) (ev_rows event) Hr) as Hb.
  pose proof (Z.div_pos (ev_first event) (ev_rows event) Hf Hr) as Hq.
  repeat split; try lia; try (subst p; nia).
  intros [Hlo Hhi]. nia.
Qed.

Lemma onPage_page_witness :
  let l := lazyState (onPage (mkPageEvent 30 15) initialState).2 in
  (0 < 15 ∧ 0 <= 30) ∧ page l = 3 ∧ (3 - 1) * rows l <= first l < 3 * rows l.
Proof.
  intros l. split; [lia|].
  destruct (onPage_page (mkPageEvent 30 15) initialState) as (_ & _ & _ & H);
    [simpl; lia | simpl; lia |].
  split; [reflexivity|]. exact (proj1 (H 3) eq_refl).
Defined.

(** X3. Against an endpoint that serves [coll], a page change to the
    offset of page [p] leaves the component showing page [p] of [coll],
    with the total set to the size of the collection and the loading flag
    cleared; the selection and the row count typed in are as before. *)
Theorem changePage_loads_page (coll : list RawArtwork) (limit p : Z)
    (s : State) :
  0 < limit →
  (changePage (server coll) (mkPageEvent ((p - 1) * limit) limit) s).2
  = loadedState coll limit p (selectedIds s) (rowCountToSelect s).
Proof.
  intros Hl. unfold changePage, pageEffect, onPage, fetchData, bind, ret,
    loadedState, server. simpl.
  rewrite Z.div_mul by lia. replace (p - 1 + 1) with p by lia. reflexivity.
Qed.

Lemma changePage_loads_page_witness :
  let coll := rawRange 1 50 in
  0 < 10
  ∧ id <$> artworks (changePage (server coll) (mkPageEvent 20 10)
                       initialState).2
    = [21; 22; 23; 24; 25; 26; 27; 28; 29; 30].
Proof.
  intros coll. split; [lia|].
  pose proof (changePage_loads_page coll 10 3 initialState ltac:(lia)) as H.
  change ((3 - 1) * 10) with 20 in H. rewrite H. reflexivity.
Defined.

(** X4. A bulk selection never changes the displayed records, the
    pagination state or the requested row count, whatever the endpoint
    answers to the fetches of the run. *)
Theorem onSelectRows_frame (fuel : nat) (remote : Remote) (c s : State) :
  artworks (onSelectRows fuel remote c s).2 = artworks s
  ∧ lazyState (onSelectRows fuel remote c s).2 = lazyState s
  ∧ rowCountToSelect (onSelectRows fuel remote c s).2 = rowCountToSelect s.
Proof.
  unfold onSelectRows, bind.
  pose proof (whileLoop_frame remote c fuel
                (mkLoop (rowCountToSelect c) (page (lazyState c))
                   (selectedIds c)) s) as Hf.
  destruct (whileLoop fuel remote c _ s) as [[ls|] s1]; exact Hf.
Qed.

(** X5. Whatever the endpoint returns (failures, short pages, ids that
    repeat), a bulk selection for [k] rows adds at most [k] ids to the
    selection (none for [k <= 0]), and every id it adds was unselected and
    is the id of a record on a page of the run. *)
Theorem onSelectRows_bound (remote : Remote) (c s : State) (fuel : nat) :
  0 < rows (lazyState c) →
  (passes c (page (lazyState c)) <= fuel)%nat →
  ∃ s', onSelectRows fuel remote c s = (Some tt, s')
    ∧ (size (selectedIds s')
       <= size (selectedIds c) + Z.to_nat (rowCountToSelect c))%nat
    ∧ ∀ x, x ∈ selectedIds s' → x ∉ selectedIds c →
        ∃ a, id a = x
             ∧ a ∈ pagesFrom remote c (page (lazyState c))
                     (passes c (page (lazyState c))).
Proof.
  intros Hrows Hfuel.
  destruct (onSelectRows_run remote c Hrows fuel s Hfuel)
    as (ls' & s' & Hrun & Hsel & _).
  exists s'. split; [exact Hrun|]. rewrite Hsel. split.
  - rewrite size_union_alt.
    pose proof (subseteq_size
      (list_to_set (id <$> taken c (rowCountToSelect c)
                             (pagesFrom remote c (page (lazyState c))
                                (passes c (page (lazyState c)))))
         ∖ selectedIds c)
      (list_to_set (id <$> taken c (rowCountToSelect c)
                             (pagesFrom remote c (page (lazyState c))
                                (passes c (page (lazyState c))))) : gset Z)
      ltac:(set_solver)) as H1.
    pose proof (size_list_to_set_le
      (id <$> taken c (rowCountToSelect c)
                (pagesFrom remote c (page (lazyState c))
                   (passes c (page (lazyState c)))))) as H2.
    rewrite length_fmap, taken_length in H2. lia.
  - intros x Hx Hnot. apply elem_of_union in Hx as [Hx|Hx]; [done|].
    apply elem_of_list_to_set, list_elem_of_fmap in Hx as (a & -> & Ha).
    exists a. split; [done|]. eapply elem_of_sublist; [exact Ha|].
    apply taken_sublist.
Qed.

Lemma onSelectRows_bound_witness :
  let remote : Remote := λ _ _, Body (Some (rawRange 1 3)) (Some 9) in
  let c := mkState (toArtwork <$> rawRange 1 3) false 9 (mkLazy 0 3 1) {[ 2 ]} 5 in
  0 < rows (lazyState c)
  ∧ ∃ s', onSelectRows 3 remote c c = (Some tt, s')
      ∧ (size (selectedIds s') <= 1 + 5)%nat.
Proof.
  intros remote c. split; [simpl; lia|].
  destruct (onSelectRows_bound remote c c 3) as (s' & Hrun & Hsize & _);
    [simpl; lia | vm_compute; lia |].
  exists s'. split; [exact Hrun | exact Hsize].
Defined.

(** X6. When the displayed page holds at least [k > 0] unselected records,
    the run makes no fetch at all: it stores the prior selection extended
    by the first [k] unselected records of the page and writes nothing
    else, so the outcome does not depend on the endpoint. *)
Theorem onSelectRows_current_page (remote : Remote) (c s : State)
    (fuel : nat) :
  0 < rowCountToSelect c
    <= Z.of_nat (length (unselected c (artworks c))) →
  (2 <= fuel)%nat →
  onSelectRows fuel remote c s
  = (Some tt,
     (setSelectedIds
        (selectedIds c ∪
         list_to_set (id <$> take (Z.to_nat (rowCountToSelect c))
                               (unselected c (artworks c)))) s).2).
Proof.
  intros [Hk Hle] Hfuel.
  destruct fuel as [|[|fuel]]; [lia | lia |].
  unfold onSelectRows.
  set (ls0 := mkLoop (rowCountToSelect c) (page (lazyState c)) (selectedIds c)).
  assert (Hbody : loopBody remote c ls0 s
                  = ((pass remote c ls0,
                      pastLastPage (page (lazyState c) + 1) (totalRecords c)
                        (rows (lazyState c))), s)).
  { unfold loopBody, pass, taken, pageContent, bind, ret. simpl.
    rewrite decide_True by done. simpl.
    rewrite slice0_pos, addAll_spec by lia. by rewrite decide_True by done. }
  assert (Hrem : remainingToSelect (pass remote c ls0) = 0).
  { unfold pass, taken, pageContent. simpl. rewrite decide_True by done.
    rewrite length_take. lia. }
  assert (Hupd : updatedSelection (pass remote c ls0)
                 = selectedIds c ∪
                   list_to_set (id <$> take (Z.to_nat (rowCountToSelect c))
                                         (unselected c (artworks c)))).
  { unfold pass, taken, pageContent. simpl. by rewrite decide_True by done. }
  assert (Hloop : whileLoop (S (S fuel)) remote c ls0 s
                  = (Some (pass remote c ls0), s)).
  { change (whileLoop (S (S fuel)) remote c ls0 s)
      with ((if remainingToSelect ls0 >? 0
             then bind (loopBody remote c ls0)
                    (λ r, if r.2 then ret (Some r.1)
                          else whileLoop (S fuel) remote c r.1)
             else ret (Some ls0)) s).
    replace (remainingToSelect ls0 >? 0) with true
      by (symmetry; apply Z.gtb_lt; simpl; lia).
    unfold bind at 1. rewrite Hbody.
    destruct (pastLastPage _ _ _); [reflexivity|].
    change (whileLoop (S fuel) remote c (pass remote c ls0) s
            = (Some (pass remote c ls0), s)).
    change (whileLoop (S fuel) remote c (pass remote c ls0) s)
      with ((if remainingToSelect (pass remote c ls0) >? 0
             then bind (loopBody remote c (pass remote c ls0))
                    (λ r, if r.2 then ret (Some r.1)
                          else whileLoop fuel remote c r.1)
             else ret (Some (pass remote c ls0))) s).
    rewrite Hrem. reflexivity. }
  unfold bind at 1. rewrite Hloop, Hupd. reflexivity.
Qed.

Lemma onSelectRows_current_page_witness :
  let coll := rawRange 1 50 in
  let c := loadedState coll 10 2 {[ 11 ]} 3 in
  0 < rowCountToSelect c <= Z.of_nat (length (unselected c (artworks c)))
  ∧ elements (selectionAfter (onSelectRows 2 (λ _ _, Rejected) c c))
    = elements ({[ 11; 12; 13; 14 ]} : gset Z).
Proof.
  intros coll c.
  assert (H : 0 < rowCountToSelect c
              <= Z.of_nat (length (unselected c (artworks c))))
    by (vm_compute; split; [reflexivity | discriminate]).
  split; [exact H|].
  rewrite (onSelectRows_current_page (λ _ _, Rejected) c c 2 H (le_n 2)).
  by vm_compute.
Defined.

(** X7. A run asks the endpoint only for pages after the displayed one and
    up to [ceil (totalRecords / rows)]: two endpoints that agree on those
    pages lead to the same selection, whatever they answer elsewhere, the
    displayed page included. *)
Theorem onSelectRows_pages_asked (remote1 remote2 : Remote) (c s1 s2 : State)
    (fuel : nat) :
  0 < rows (lazyState c) →
  (passes c (page (lazyState c)) <= fuel)%nat →
  (∀ p, page (lazyState c) < p <= lastPage c →
        remote1 p (rows (lazyState c)) = remote2 p (rows (lazyState c))) →
  (onSelectRows fuel remote1 c s1).1 = Some tt
  ∧ (onSelectRows fuel remote2 c s2).1 = Some tt
  ∧ selectionAfter (onSelectRows fuel remote1 c s1)
    = selectionAfter (onSelectRows fuel remote2 c s2).
Proof.
  intros Hrows Hfuel Hagree.
  destruct (onSelectRows_run remote1 c Hrows fuel s1 Hfuel)
    as (ls1 & s1' & Hrun1 & Hsel1 & _).
  destruct (onSelectRows_run remote2 c Hrows fuel s2 Hfuel)
    as (ls2 & s2' & Hrun2 & Hsel2 & _).
  unfold selectionAfter. rewrite Hrun1, Hrun2. simpl.
  split; [done|]. split; [done|]. rewrite Hsel1, Hsel2.
  do 4 f_equal. apply pagesFrom_ext. intros q Hq. unfold pageContent.
  destruct (decide (q = page (lazyState c))) as [|Hne]; [done|].
  unfold fetched. rewrite Hagree; [done|]. unfold passes in Hq. lia.
Qed.

Lemma onSelectRows_pages_asked_witness :
  let coll := rawRange 1 30 in
  let c := loadedState coll 10 2 ∅ 15 in
  0 < rows (lazyState c)
  ∧ selectionAfter (onSelectRows 2 (failingAt 1 coll) c c)
    = selectionAfter (onSelectRows 2 (failingAt 4 coll) c initialState).
Proof.
  intros coll c. split; [simpl; lia|].
  refine (proj2 (proj2 (onSelectRows_pages_asked (failingAt 1 coll)
                          (failingAt 4 coll) c c initialState 2 _ _ _))).
  - simpl; lia.
  - vm_compute; lia.
  - intros p Hp. change (lastPage c) with 3 in Hp. simpl in Hp.
    unfold failingAt.
    destruct (Z.eqb_spec p 1) as [|_]; [lia|].
    destruct (Z.eqb_spec p 4) as [|_]; [lia|]. reflexivity.
Defined.

(** X8. After a bulk selection for at least as many rows as the displayed
    page has unselected records, every record of that page is selected and
    the page is displayed as before: the header checkbox of a non-empty
    page is checked, whatever the endpoint answered during the run. *)
Theorem onSelectRows_checks_header (remote : Remote) (c : State)
    (fuel : nat) :
  0 < rows (lazyState c) →
  (passes c (page (lazyState c)) <= fuel)%nat →
  artworks c ≠ [] →
  Z.of_nat (length (unselected c (artworks c))) <= rowCountToSelect c →
  (onSelectRows fuel remote c c).1 = Some tt
  ∧ headerChecked (onSelectRows fuel remote c c).2 = true.
Proof.
  intros Hrows Hfuel Hne Hk.
  destruct (onSelectRows_run remote c Hrows fuel c Hfuel)
    as (ls' & s' & Hrun & Hsel & _).
  pose proof (onSelectRows_artworks remote c fuel c) as Hart.
  rewrite Hrun in Hart |- *. simpl in Hart |- *. split; [done|].
  apply headerChecked_true; rewrite Hart; [done|].
  intros a Ha. rewrite Hsel.
  destruct (decide (id a ∈ selectedIds c)) as [Hin|Hout]; [set_solver|].
  apply elem_of_union_r, elem_of_list_to_set, list_elem_of_fmap.
  exists a. split; [done|].
  unfold passes. simpl pagesFrom. rewrite taken_app.
  apply elem_of_app. left. unfold pageContent.
  rewrite decide_True by done. rewrite taken_all by done.
  by apply elem_of_unselected.
Qed.

Lemma onSelectRows_checks_header_witness :
  let coll := rawRange 1 30 in
  let c := loadedState coll 10 2 {[ 12 ]} 9 in
  (artworks c ≠ []
   ∧ Z.of_nat (length (unselected c (artworks c))) <= rowCountToSelect c)
  ∧ headerChecked c = false
  ∧ headerChecked (onSelectRows 2 (failingAt 3 coll) c c).2 = true.
Proof.
  intros coll c.
  assert (H1 : artworks c ≠ []) by discriminate.
  assert (H2 : Z.of_nat (length (unselected c (artworks c)))
               <= rowCountToSelect c) by (vm_compute; discriminate).
  split; [done|]. split; [by vm_compute|].
  refine (proj2 (onSelectRows_checks_header (failingAt 3 coll) c 2 _ _ H1 H2)).
  - simpl; lia.
  - vm_compute; lia.
Defined.

(** X9. Ticking the header checkbox of a non-empty page leaves it checked;
    unticking it leaves it unchecked with no shown record selected; in both
    cases an id that is not shown on the page keeps its selection
    status. *)
Theorem onSelectAll_header (c : State) :
  (artworks c ≠ [] → headerChecked (onSelectAll true c c).2 = true)
  ∧ headerChecked (onSelectAll false c c).2 = false
  ∧ (∀ a, a ∈ artworks c → id a ∉ selectedIds (onSelectAll false c c).2)
  ∧ (∀ b x, x ∉ id <$> artworks c →
       (x ∈ selectedIds (onSelectAll b c c).2 ↔ x ∈ selectedIds c)).
Proof.
  assert (Hoff : ∀ a, a ∈ artworks c
                      → id a ∉ selectedIds (onSelectAll false c c).2).
  { intros a Ha. unfold onSelectAll, setSelectedIds. simpl.
    rewrite foldl_del_spec. intros Hin.
    apply elem_of_difference in Hin as [_ Hin]. apply Hin.
    apply elem_of_list_to_set, list_elem_of_fmap. eauto. }
  split; [|split; [|split]].
  - intros Hne. apply headerChecked_true; [exact Hne|].
    intros a Ha. unfold onSelectAll, setSelectedIds in *. simpl in *.
    rewrite foldl_add_spec. apply elem_of_union_r, elem_of_list_to_set,
      list_elem_of_fmap. eauto.
  - destruct (headerChecked (onSelectAll false c c).2) eqn:E; [|done].
    apply headerChecked_iff_aux in E as [Hne Hall].
    change (artworks (onSelectAll false c c).2) with (artworks c) in *.
    destruct (artworks c) as [|a l] eqn:Ea; [done|].
    exfalso. apply (Hoff a); [left | apply Hall; left].
  - exact Hoff.
  - intros b x Hx. assert (x ∉ (list_to_set (id <$> artworks c) : gset Z))
      as Hx' by (by rewrite elem_of_list_to_set).
    destruct b; unfold onSelectAll, setSelectedIds; simpl;
      [rewrite foldl_add_spec | rewrite foldl_del_spec]; set_solver.
Qed.

Lemma onSelectAll_header_witness :
  let c := loadedState (rawRange 1 20) 10 1 {[ 3; 15 ]} 0 in
  artworks c ≠ []
  ∧ headerChecked (onSelectAll true c c).2 = true
  ∧ (15 ∉ id <$> artworks c) ∧ 15 ∈ selectedIds (onSelectAll false c c).2.
Proof.
  intros c.
  assert (H1 : artworks c ≠ []) by discriminate.
  assert (H2 : 15 ∉ id <$> artworks c).
  { apply (bool_decide_unpack _). by vm_compute. }
  destruct (onSelectAll_header c) as (Hon & _ & _ & Hother).
  split; [exact H1|]. split; [exact (Hon H1)|]. split; [exact H2|].
  apply (proj2 (Hother false 15 H2)). simpl. set_solver.
Defined.

Lemma visibleSelection_ids (c : State) :
  (list_to_set (id <$> visibleSelection c) : gset Z)
  = selectedIds c ∩ list_to_set (id <$> artworks c).
Proof.
  apply set_eq. intros x.
  rewrite elem_of_intersection, !elem_of_list_to_set, !list_elem_of_fmap.
  unfold visibleSelection. split.
  - intros (a & -> & Ha). apply list_elem_of_filter in Ha as [Hs Ha].
    apply bool_decide_unpack in Hs. eauto.
  - intros [Hs (a & -> & Ha)]. exists a. split; [done|].
    apply list_elem_of_filter. split; [by apply bool_decide_pack | done].
Qed.

(** X10. [onSelectionChange] replaces the whole selection by the ids of the
    rows the table reports.  Reported with the table's own [selection]
    prop, the selection shrinks to the selected ids shown on the page; and
    for every report made of rows of the page, an id selected on another
    page is no longer selected afterwards. *)
Theorem onSelectionChange_drops_other_pages (c s : State)
    (value : list Artwork) :
  selectedIds (onSelectionChange (visibleSelection c) s).2
    = selectedIds c ∩ list_to_set (id <$> artworks c)
  ∧ (value ⊆ artworks c →
     ∀ x, x ∈ selectedIds (onSelectionChange value s).2 →
          x ∈ id <$> artworks c).
Proof.
  split.
  - unfold onSelectionChange, setSelectedIds. simpl. apply visibleSelection_ids.
  - intros Hsub x. unfold onSelectionChange, setSelectedIds. simpl.
    rewrite elem_of_list_to_set, !list_elem_of_fmap.
    intros (a & -> & Ha). eauto.
Qed.

Lemma onSelectionChange_drops_other_pages_witness :
  let c := loadedState (rawRange 1 20) 10 1 {[ 3; 15 ]} 0 in
  let value := take 1 (artworks c) in
  value ⊆ artworks c
  ∧ selectedIds (onSelectionChange (visibleSelection c) c).2
    = {[ 3; 15 ]} ∩ list_to_set (id <$> artworks c)
  ∧ 15 ∉ selectedIds (onSelectionChange value c).2.
Proof.
  intros c value.
  assert (Hsub : value ⊆ artworks c) by apply subseteq_take.
  destruct (onSelectionChange_drops_other_pages c c value) as (Heq & Hdrop).
  split; [exact Hsub|]. split; [exact Heq|].
  intros Hin. apply (Hdrop Hsub) in Hin. revert Hin.
  apply (bool_decide_unpack _). by vm_compute.
Defined.

(** X11. The header checkbox is checked exactly when the page is not empty
    and the [selection] prop handed to the table is the whole list of
    displayed records. *)
Theorem headerChecked_visibleSelection (c : State) :
  headerChecked c = true
  ↔ artworks c ≠ [] ∧ visibleSelection c = artworks c.
Proof.
  unfold visibleSelection. rewrite filter_all_iff. split.
  - intros H. apply headerChecked_iff_aux in H as [Hne Hall].
    split; [done|]. intros a Ha. by apply bool_decide_pack, Hall.
  - intros [Hne Hall]. apply headerChecked_true; [done|].
    intros a Ha. specialize (Hall a Ha). by apply bool_decide_unpack in Hall.
Qed.

(** X12. On a page whose records have pairwise different ids, ticking the
    header checkbox raises the selection count by the number of unselected
    records shown, and unticking it lowers the count by the number of
    selected records shown. *)
Theorem onSelectAll_count (c : State) :
  NoDup (id <$> artworks c) →
  selectedCount (onSelectAll true c c).2
    = (selectedCount c + length (unselected c (artworks c)))%nat
  ∧ selectedCount (onSelectAll false c c).2
    = (selectedCount c - length (visibleSelection c))%nat.
Proof.
  intros Hnd. unfold selectedCount, onSelectAll, setSelectedIds. simpl. split.
  - rewrite foldl_add_spec.
    assert (selectedIds c ∪ list_to_set (id <$> artworks c)
            = selectedIds c ∪ list_to_set (id <$> unselected c (artworks c)))
      as ->.
    { apply set_eq. intros x.
      rewrite !elem_of_union, !elem_of_list_to_set, !list_elem_of_fmap.
      split; (intros [Hs|(a & -> & Ha)]; [by left|]).
      - destruct (decide (id a ∈ selectedIds c)); [by left | right].
        exists a. split; [done|]. by apply elem_of_unselected.
      - right. exists a. split; [done|].
        by apply elem_of_unselected in Ha as [_ Ha]. }
    apply size_add_fresh.
    + eapply sublist_NoDup; [exact Hnd|]. apply fmap_sublist, sublist_filter.
    + intros a Ha. by apply elem_of_unselected in Ha as [? _].
  - rewrite foldl_del_spec, size_difference_alt, <- visibleSelection_ids.
    rewrite size_list_to_set, length_fmap; [done|].
    eapply sublist_NoDup; [exact Hnd|]. apply fmap_sublist, sublist_filter.
Qed.

Lemma onSelectAll_count_witness :
  let c := loadedState (rawRange 1 20) 10 1 {[ 3; 15 ]} 0 in
  NoDup (id <$> artworks c)
  ∧ selectedCount (onSelectAll true c c).2 = (2 + 9)%nat
  ∧ selectedCount (onSelectAll false c c).2 = (2 - 1)%nat.
Proof.
  intros c.
  assert (Hnd : NoDup (id <$> artworks c)).
  { apply (bool_decide_unpack _). by vm_compute. }
  split; [exact Hnd|]. exact (onSelectAll_count c Hnd).
Defined.
